(** * PaintCoder: layer stack, undo history and pixel-to-code compiler

    A shallow embedding of the core of [script.js]: the layer stack
    ([addLayer], [setActiveLayer], [toggleLayerVisibility], [deleteLayer]),
    the snapshot history ([saveHistoryState], [undo]), the colour picker
    ([pickColorGlobal]), the code generator ([processAllLayers]) and the
    project loader ([loadProject], [restoreProject]).

    The script keeps one mutable [state] object and a handful of canvases.
    Here the session is a record threaded through a small state-and-exception
    monad; a canvas is the row-major list of its pixels. *)

From Stdlib Require Import ZArith String Ascii DecimalString HexadecimalString.
From stdpp Require Import base numbers list strings.

Local Open Scope string_scope.
Local Open Scope list_scope.
Local Open Scope Z_scope.

(** ** Pixels and canvases *)

(** One pixel of a canvas backing store: 8-bit channels, colour channels
    premultiplied by alpha (the representation a 2D canvas keeps). *)
Record Pixel := RGBA { red : Z; green : Z; blue : Z; alpha : Z }.

Definition transparent : Pixel := RGBA 0 0 0 0.
Definition white : Pixel := RGBA 255 255 255 255.

(** A canvas of [CONFIG.width] x [CONFIG.height] pixels, row by row. *)
Abbreviation Canvas := (list Pixel).

(** [globalCompositeOperation = 'source-over'] on one channel and on a pixel:
    the source is laid over the destination, weighted by the source alpha. *)
Definition over_channel (sa s d : Z) : Z := s + d * (255 - sa) / 255.

Definition source_over (dst src : Pixel) : Pixel :=
  RGBA (over_channel (alpha src) (red src) (red dst))
       (over_channel (alpha src) (green src) (green dst))
       (over_channel (alpha src) (blue src) (blue dst))
       (over_channel (alpha src) (alpha src) (alpha dst)).

(** [ctx.fillRect(0, 0, w, h)] with an opaque or translucent [fillStyle]. *)
Definition fillRect (fillStyle : Pixel) (c : Canvas) : Canvas :=
  (λ d, source_over d fillStyle) <$> c.

(** [ctx.clearRect(0, 0, w, h)]. *)
Definition clearRect (c : Canvas) : Canvas := (λ _, transparent) <$> c.

(** [ctx.drawImage(img, 0, 0)]: the image is composited pixel by pixel; the
    destination keeps its size. The two pixel lists are matched in order,
    which is the placement by row and column for an image as wide as the
    canvas (what [toDataURL] of a layer gives); statements about other
    images carry a size hypothesis. *)
Fixpoint drawImage (img dst : Canvas) : Canvas :=
  match dst, img with
  | d :: dst', s :: img' => source_over d s :: drawImage img' dst'
  | _, _ => dst
  end.

(** [getImageData(...).data]: four bytes per pixel, colour channels divided
    back by alpha. *)
Definition unpremultiply (a c : Z) : Z := if a =? 0 then 0 else c * 255 / a.

Definition pixelBytes (p : Pixel) : list Z :=
  [ unpremultiply (alpha p) (red p); unpremultiply (alpha p) (green p);
    unpremultiply (alpha p) (blue p); alpha p ].

Definition getImageData (c : Canvas) : list Z := c ≫= pixelBytes.

(** [canvas.toDataURL()] and the decoding done by [img.src = ...]: the
    encoding is lossless, so an encoded image is represented by the pixels it
    decodes to; [Corrupt] is a string no image decodes from (its [onload]
    never fires). *)
Inductive DataURL := Encoded (pixels : Canvas) | Corrupt.

Definition toDataURL (c : Canvas) : DataURL := Encoded c.

Definition decode (d : DataURL) : option Canvas :=
  match d with Encoded px => Some px | Corrupt => None end.

(** ** Session state *)

Record Config := { width : Z; height : Z; bgColor : Pixel }.

Inductive Tool := pen | eraser | pipette.

Record Layer := { id : Z; canvas : Canvas; visible : bool; name : string }.

Record HistoryEntry := { layerId : Z; dataURL : DataURL }.

(** The [state] object (the per-stroke fields [isDrawing], [size], [shape],
    [zoom], [lastX], [lastY] play no part below and are left out), together
    with the messages shown through [alert]. *)
Record State := {
  currentTool : Tool;
  color : string;
  layers : list Layer;
  activeLayerId : option Z;
  nextLayerId : Z;
  history : list HistoryEntry;
  historyStep : Z;
  maxHistory : Z;
  alerts : list string
}.

Definition set_currentTool (t : Tool) (s : State) : State :=
  {| currentTool := t; color := color s; layers := layers s;
     activeLayerId := activeLayerId s; nextLayerId := nextLayerId s;
     history := history s; historyStep := historyStep s;
     maxHistory := maxHistory s; alerts := alerts s |}.

Definition set_color (c : string) (s : State) : State :=
  {| currentTool := currentTool s; color := c; layers := layers s;
     activeLayerId := activeLayerId s; nextLayerId := nextLayerId s;
     history := history s; historyStep := historyStep s;
     maxHistory := maxHistory s; alerts := alerts s |}.

Definition set_layers (ls : list Layer) (s : State) : State :=
  {| currentTool := currentTool s; color := color s; layers := ls;
     activeLayerId := activeLayerId s; nextLayerId := nextLayerId s;
     history := history s; historyStep := historyStep s;
     maxHistory := maxHistory s; alerts := alerts s |}.

Definition set_activeLayerId (a : option Z) (s : State) : State :=
  {| currentTool := currentTool s; color := color s; layers := layers s;
     activeLayerId := a; nextLayerId := nextLayerId s;
     history := history s; historyStep := historyStep s;
     maxHistory := maxHistory s; alerts := alerts s |}.

Definition set_nextLayerId (n : Z) (s : State) : State :=
  {| currentTool := currentTool s; color := color s; layers := layers s;
     activeLayerId := activeLayerId s; nextLayerId := n;
     history := history s; historyStep := historyStep s;
     maxHistory := maxHistory s; alerts := alerts s |}.

Definition set_history (h : list HistoryEntry) (s : State) : State :=
  {| currentTool := currentTool s; color := color s; layers := layers s;
     activeLayerId := activeLayerId s; nextLayerId := nextLayerId s;
     history := h; historyStep := historyStep s;
     maxHistory := maxHistory s; alerts := alerts s |}.

Definition set_historyStep (n : Z) (s : State) : State :=
  {| currentTool := currentTool s; color := color s; layers := layers s;
     activeLayerId := activeLayerId s; nextLayerId := nextLayerId s;
     history := history s; historyStep := n;
     maxHistory := maxHistory s; alerts := alerts s |}.

Definition set_alerts (a : list string) (s : State) : State :=
  {| currentTool := currentTool s; color := color s; layers := layers s;
     activeLayerId := activeLayerId s; nextLayerId := nextLayerId s;
     history := history s; historyStep := historyStep s;
     maxHistory := maxHistory s; alerts := a |}.

Definition set_canvas (c : Canvas) (l : Layer) : Layer :=
  {| id := id l; canvas := c; visible := visible l; name := name l |}.

Definition set_visible (v : bool) (l : Layer) : Layer :=
  {| id := id l; canvas := canvas l; visible := v; name := name l |}.

(** The [state] literal the script starts from. *)
Definition state : State :=
  {| currentTool := pen; color := "#000000"; layers := [];
     activeLayerId := None; nextLayerId := 1;
     history := []; historyStep := -1; maxHistory := 20; alerts := [] |}.

(** ** Statements: mutation of [state] and exceptions *)

Inductive Error := TypeError | SyntaxError.

Inductive Completion (A : Type) := Normal (v : A) | Throw (e : Error).
Arguments Normal {A} v.
Arguments Throw {A} e.

(** A statement runs on the session and completes normally or abruptly;
    mutations made before a [throw] stay. *)
Definition M (A : Type) : Type := State → Completion A * State.

Definition ret {A} (v : A) : M A := λ s, (Normal v, s).

Definition bind {A B} (m : M A) (k : A → M B) : M B :=
  λ s, match m s with
       | (Normal v, s') => k v s'
       | (Throw e, s') => (Throw e, s')
       end.

Definition throw {A} (e : Error) : M A := λ s, (Throw e, s).
Definition get : M State := λ s, (Normal s, s).
Definition modify (f : State → State) : M unit := λ s, (Normal tt, f s).

Definition try_catch {A} (body : M A) (handler : Error → M A) : M A :=
  λ s, match body s with
       | (Normal v, s') => (Normal v, s')
       | (Throw e, s') => handler e s'
       end.

Definition alert (msg : string) : M unit :=
  modify (λ s, set_alerts (alerts s ++ [msg]) s).

#[global] Instance M_ret : MRet M := @ret.
#[global] Instance M_bind : MBind M := λ A B k m, bind m k.

(** The session a statement leaves behind, and how it completed. *)
Definition exec {A} (m : M A) (s : State) : State := (m s).2.
Definition completion {A} (m : M A) (s : State) : Completion A := (m s).1.


(** JavaScript array helpers. *)

(** [a.findIndex(l => l.id === i)] together with [a.find(...)]. *)
Definition findLayer (i : Z) (ls : list Layer) : option (nat * Layer) :=
  list_find (λ l, id l = i) ls.

(** [a.slice(0, e)]: a negative end counts from the back. *)
Definition slice0 {A} (e : Z) (a : list A) : list A :=
  let len := Z.of_nat (length a) in
  take (Z.to_nat (if e <? 0 then Z.max (len + e) 0 else Z.min e len)) a.

(** [a.shift()]. *)
Definition shift {A} (a : list A) : list A := drop 1 a.

(** [a[i]] for a numeric index. *)
Definition at_index {A} (a : list A) (i : Z) : option A :=
  if i <? 0 then None else a !! Z.to_nat i.

(** JavaScript numbers are doubles. [toDouble z] is the double nearest to
    the integer [z] (ties to the even significand of 53 bits) within the
    range of the finite doubles: [z] itself up to magnitude 2^53, a multiple
    of a power of two beyond. *)
Definition toDouble (z : Z) : Z :=
  let a := Z.abs z in
  if a <=? 2 ^ 53 then z
  else
    let e := Z.log2 a - 52 in
    let q := a / 2 ^ e in
    let r := a mod 2 ^ e in
    let half := 2 ^ (e - 1) in
    let q' := if (half <? r) || ((r =? half) && Z.odd q) then q + 1 else q in
    Z.sgn z * (q' * 2 ^ e).

(** [n++] leaves [n + 1] rounded to a double in the variable: the next
    integer below 2^53, and 2^53 again at 2^53. *)
Definition js_succ (n : Z) : Z := toDouble (n + 1).

Arguments js_succ : simpl never.

Section Core.

(** [CONFIG]: the canvas dimensions and the background colour. *)
Variable CONFIG : Config.

(** [document.createElement('canvas')] sized to [CONFIG]: all transparent. *)
Definition createCanvas : Canvas :=
  replicate (Z.to_nat (width CONFIG) * Z.to_nat (height CONFIG)) transparent.

(** ** History *)

Definition saveHistoryState (layerId : Z) : M unit :=
  s ← get;
  match findLayer layerId (layers s) with
  | None => mret tt
  | Some (_, layer) =>
      (* Trim history if we branched *)
      (if historyStep s <? Z.of_nat (length (history s)) - 1
       then modify (set_history (slice0 (historyStep s + 1) (history s)))
       else mret tt);;
      modify (λ s, set_history
        (history s ++ [ {| layerId := layerId;
                           dataURL := toDataURL (canvas layer) |} ]) s);;
      modify (λ s, set_historyStep (historyStep s + 1) s);;
      s ← get;
      if maxHistory s <? Z.of_nat (length (history s))
      then modify (λ s, set_history (shift (history s)) s);;
           modify (λ s, set_historyStep (historyStep s - 1) s)
      else mret tt
  end.

(** The backwards scan of [undo]: [for (i = historyStep; i >= 0; i--)].
    Reading [.layerId] off a missing entry is a [TypeError]. *)
Fixpoint findPrevData (h : list HistoryEntry)
    (actionToUndo : option HistoryEntry) (i : nat)
  : Completion (option DataURL) :=
  match h !! i, actionToUndo with
  | Some e, Some a =>
      if layerId e =? layerId a then Normal (Some (dataURL e))
      else match i with
           | O => Normal None
           | S j => findPrevData h actionToUndo j
           end
  | _, _ => Throw TypeError
  end.

(** The [img.onload] handler installed by [undo]: the layer is wiped and the
    decoded snapshot drawn onto it. *)
Definition undo_onload (idx : nat) (layer : Layer) (img : Canvas) : M unit :=
  modify (λ s, set_layers
    (<[idx := set_canvas (drawImage img (clearRect (canvas layer))) layer]>
       (layers s)) s).

(** [undo]; the image decode it starts is run to completion. *)
Definition undo : M unit :=
  s ← get;
  if 0 <? historyStep s then
    let actionToUndo := at_index (history s) (historyStep s) in
    modify (set_historyStep (historyStep s - 1));;
    s ← get;
    match findPrevData (history s) actionToUndo (Z.to_nat (historyStep s)) with
    | Throw e => throw e
    | Normal prevData =>
        match actionToUndo with
        | None => throw TypeError
        | Some a =>
            match findLayer (layerId a) (layers s), prevData with
            | Some (idx, layer), Some d =>
                match decode d with
                | Some img => undo_onload idx layer img
                | None => mret tt
                end
            | _, _ => mret tt
            end
        end
    end
  else mret tt.

(** ** Layer management *)

Definition setActiveLayer (i : Z) : M unit :=
  modify (set_activeLayerId (Some i)).

Definition addLayer (name : string) : M unit :=
  s ← get;
  let i := nextLayerId s in
  modify (set_nextLayerId (js_succ i));;
  (* If it's the very first layer, fill white *)
  let canvas :=
    if Z.of_nat (length (layers s)) =? 0
    then fillRect (bgColor CONFIG) createCanvas else createCanvas in
  let layerObj := {| id := i; canvas := canvas; visible := true; name := name |} in
  modify (λ s, set_layers (layers s ++ [layerObj]) s);;
  setActiveLayer i;;
  saveHistoryState i.

Definition toggleLayerVisibility (i : Z) : M unit :=
  s ← get;
  match findLayer i (layers s) with
  | Some (idx, layer) =>
      modify (set_layers
        (<[idx := set_visible (negb (visible layer)) layer]> (layers s)))
  | None => mret tt
  end.

Definition deleteLayer (i : Z) : M unit :=
  s ← get;
  if Z.of_nat (length (layers s)) <=? 1 then mret tt (* Don't delete last layer *)
  else
    match findLayer i (layers s) with
    | Some (idx, _) =>
        modify (set_layers (delete idx (layers s)));;
        (* If we deleted active layer, pick a neighbor *)
        if decide (activeLayerId s = Some i) then
          s ← get;
          let newIdx := Z.max 0 (Z.of_nat idx - 1) in
          match at_index (layers s) newIdx with
          | Some l => setActiveLayer (id l)
          | None => throw TypeError
          end
        else mret tt
    | None => mret tt
    end.

(** [getActiveCtx() ; ctx.clearRect(...)] on the active layer. *)
Definition clearCurrentLayer : M unit :=
  s ← get;
  match activeLayerId s with
  | None => mret tt
  | Some a =>
      match findLayer a (layers s) with
      | Some (idx, layer) =>
          modify (set_layers
            (<[idx := set_canvas (clearRect (canvas layer)) layer]> (layers s)));;
          saveHistoryState a
      | None => mret tt
      end
  end.

(** The part of [init] that touches the session. *)
Definition init : M unit := addLayer "Background".

(** ** Colour picking *)

Definition switchToTool (toolName : Tool) : M unit :=
  modify (set_currentTool toolName).

(** [n.toString(16)] and [s.slice(1)]. *)
Definition toString16 (n : Z) : string :=
  HexadecimalString.NilZero.string_of_int (Z.to_hex_int n).

Definition slice1 (s : string) : string :=
  match s with EmptyString => EmptyString | String _ rest => rest end.

(** The operands stay below 2^25, so the 32-bit wrap of [<<] is not
    reached for byte arguments. *)
Definition rgbToHex (r g b : Z) : string :=
  "#" +:+ slice1 (toString16 ((1 ≪ 24) + (r ≪ 16) + (g ≪ 8) + b)).

(** The pixel of a canvas at integer coordinates, if inside it. *)
Definition pixelAt (c : Canvas) (x y : Z) : option Pixel :=
  if (0 <=? x) && (x <? width CONFIG) && (0 <=? y) && (y <? height CONFIG)
  then c !! Z.to_nat (y * width CONFIG + x) else None.

(** [tCtx.drawImage(l.canvas, x, y, 1, 1, 0, 0, 1, 1)]: the source pixel at
    [(x, y)] is composited onto the 1x1 canvas; a source rectangle outside
    the layer draws nothing. Coordinates are whole pixels (no resampling). *)
Definition drawImage_1x1 (src : Canvas) (x y : Z) (dst : Canvas) : Canvas :=
  match pixelAt src x y with
  | Some p => drawImage [p] dst
  | None => dst
  end.

(** The 1x1 canvas of [pickColorGlobal] after the layers are drawn. *)
Definition pickCanvas (x y : Z) (ls : list Layer) : Canvas :=
  foldl (λ tempC l, if visible l then drawImage_1x1 (canvas l) x y tempC
                    else tempC)
        [transparent] ls.

Definition pickColorGlobal (x y : Z) : M unit :=
  s ← get;
  let data := getImageData (pickCanvas x y (layers s)) in
  let hex := rgbToHex (default 0 (data !! 0%nat)) (default 0 (data !! 1%nat))
                      (default 0 (data !! 2%nat)) in
  modify (set_color hex);;
  switchToTool pen.

(** ** Code generation *)

(** First half of [processAllLayers]: flatten all visible layers onto a
    white temp canvas. *)
Definition flattenFrom (base : Canvas) (ls : list Layer) : Canvas :=
  foldl (λ tempC l, if visible l then drawImage (canvas l) tempC else tempC)
        base ls.

Definition flattenLayers (ls : list Layer) : Canvas :=
  flattenFrom (fillRect white createCanvas) ls.

(** A JavaScript number read from the image data, or [undefined]. *)
Definition num (v : option Z) : string :=
  match v with
  | Some n => DecimalString.NilZero.string_of_int (Z.to_int n)
  | None => "undefined"
  end.

(** [v < 250]; false for [undefined]. *)
Definition lt250 (v : option Z) : bool :=
  match v with Some n => n <? 250 | None => false end.

Record Scan := {
  lastR : option Z; lastG : option Z; lastB : option Z;
  rects : list string
}.

(** Body of the inner loop of [processAllLayers]. *)
Definition scanPixel (data : list Z) (y x : Z) (acc : Scan) : Scan :=
  let i := (y * width CONFIG + x) * 4 in
  let r := at_index data i in
  let g := at_index data (i + 1) in
  let b := at_index data (i + 2) in
  (* Assuming white background check *)
  if lt250 r || lt250 g || lt250 b then
    let acc :=
      if bool_decide (r ≠ lastR acc ∨ g ≠ lastG acc ∨ b ≠ lastB acc) then
        {| lastR := r; lastG := g; lastB := b;
           rects := rects acc ++
             ["  fill(" +:+ num r +:+ ", " +:+ num g +:+ ", " +:+ num b +:+ ");"] |}
      else acc in
    {| lastR := lastR acc; lastG := lastG acc; lastB := lastB acc;
       rects := rects acc ++
         ["  rect(" +:+ num (Some x) +:+ ", " +:+ num (Some y) +:+ ", 1);"] |}
  else acc.

(** The two nested loops: rows outside, columns inside. *)
Definition scanPixels (data : list Z) : Scan :=
  foldl (λ acc y, foldl (λ acc x, scanPixel data y x acc) acc
                        (seqZ 0 (width CONFIG)))
        {| lastR := Some (-1); lastG := Some (-1); lastB := Some (-1);
           rects := [] |}
        (seqZ 0 (height CONFIG)).

Definition newline : string := String (ascii_of_nat 10) EmptyString.

(** Second half of [processAllLayers]: the program text for the image data
    of the flattened canvas. *)
Definition compileLines (tempC : Canvas) : list string :=
  let data := getImageData tempC in
  let lines :=
    [ "function setup() {";
      "  createCanvas(" +:+ num (Some (width CONFIG)) +:+ ", "
        +:+ num (Some (height CONFIG)) +:+ ");";
      "}";
      "";
      "function draw() {";
      "  background(280);";
      "  noStroke();";
      "" ] in
  let rects := rects (scanPixels data) in
  (lines ++ rects) ++ ["}"].

Definition compileCode (tempC : Canvas) : string :=
  String.concat newline (compileLines tempC).

Definition processAllLayers : M string :=
  s ← get;
  mret (compileCode (flattenLayers (layers s))).

(** ** Save / load *)

(** One element of [project.layers] and the project record, as read back
    from the saved JSON. A missing [nextLayerId] or [layers] is [None]. *)
Record LayerData := {
  ld_id : Z; ld_name : string; ld_visible : bool; ld_data : DataURL
}.

Record Project := {
  p_nextLayerId : option Z;
  p_layers : option (list LayerData)
}.

(** A project file, by what [JSON.parse] makes of its text. *)
Inductive FileText := Malformed | JSONText (project : Project).

Definition JSON_parse (text : FileText) : M Project :=
  match text with
  | Malformed => throw SyntaxError
  | JSONText project => mret project
  end.

(** [a.forEach(f)]. *)
Fixpoint forEach {A} (f : A → M unit) (a : list A) : M unit :=
  match a with
  | [] => mret tt
  | x :: rest => f x;; forEach f rest
  end.

(** The [img.onload] handler of the [k]-th restored layer; it returns the
    new [loadedCount]. *)
Definition restore_onload (total k : nat) (img : Canvas) (loadedCount : nat)
  : M nat :=
  modify (λ s, set_layers
    (alter (λ l, set_canvas (drawImage img (canvas l)) l) k (layers s)) s);;
  let loadedCount := S loadedCount in
  (if (loadedCount =? total)%nat then
     (* All loaded: set active to last layer *)
     s ← get;
     match last (layers s) with
     | Some l => setActiveLayer (id l)
     | None => mret tt
     end
   else mret tt);;
  mret loadedCount.

(** The handlers that fire, in the order the images were requested; an image
    that does not decode never fires its handler. *)
Fixpoint restore_onloads (total k : nat) (lds : list LayerData)
    (loadedCount : nat) : M unit :=
  match lds with
  | [] => mret tt
  | lData :: rest =>
      match decode (ld_data lData) with
      | Some img =>
          loadedCount ← restore_onload total k img loadedCount;
          restore_onloads total (S k) rest loadedCount
      | None => restore_onloads total (S k) rest loadedCount
      end
  end.

(** [restoreProject] together with the image loads it starts, run to
    completion (the handlers never throw): the outcome of the restore once
    the last [img.onload] has fired. In the script the handlers run in later
    tasks; the session at the return of the function itself is
    [restoreProject_call] below. *)
Definition restoreProject (project : Project) : M unit :=
  (* Clear all existing layers *)
  modify (set_layers []);;
  modify (set_nextLayerId
    (match p_nextLayerId project with
     | Some n => if n =? 0 then 1 else n
     | None => 1
     end));;
  match p_layers project with
  | None => throw TypeError
  | Some lds =>
      forEach (λ lData,
        let layerObj := {| id := ld_id lData; canvas := createCanvas;
                           visible := ld_visible lData;
                           name := ld_name lData |} in
        modify (λ s, set_layers (layers s ++ [layerObj]) s)) lds;;
      restore_onloads (length lds) 0 lds 0
  end.

(** [loadProject], from the file chosen in the dialog (if any). *)
Definition loadProject (file : option FileText) : M unit :=
  match file with
  | None => mret tt
  | Some text =>
      try_catch
        (project ← JSON_parse text;
         restoreProject project)
        (λ err, alert "Failed to load project file.")
  end.

End Core.

(** ** Vocabulary of the properties *)

(** The canvas size used by the script. *)
Definition CONFIG : Config := {| width := 540; height := 540; bgColor := white |}.

(** The colour a flattened canvas holds at [(x, y)], read from its image
    data at the index the code generator uses and written as the picker
    writes colours. *)
Definition colorAt (cfg : Config) (tempC : Canvas) (x y : Z) : string :=
  let data := getImageData tempC in
  let i := (y * width cfg + x) * 4 in
  rgbToHex (default 0 (at_index data i)) (default 0 (at_index data (i + 1)))
           (default 0 (at_index data (i + 2))).

(** What a caller can observe of a failure: the statement threw, or an
    alert was shown. *)
Definition reported {A} (m : M A) (s : State) : Prop :=
  (∃ e, completion m s = Throw e) ∨ alerts (exec m s) ≠ alerts s.

(** [activeLayerId] names a layer of a non-empty stack. *)
Definition active_valid (s : State) : Prop :=
  layers s ≠ [] → ∃ i, activeLayerId s = Some i ∧ i ∈ id <$> layers s.

(** The layer-stack operations; [run] takes a restore with its image loads
    completed. *)
Inductive Op :=
| AddLayer (name : string)
| DeleteLayer (i : Z)
| SetActiveLayer (i : Z)
| ToggleLayerVisibility (i : Z)
| RestoreProject (project : Project).

Definition run (cfg : Config) (op : Op) : M unit :=
  match op with
  | AddLayer name => addLayer cfg name
  | DeleteLayer i => deleteLayer i
  | SetActiveLayer i => setActiveLayer i
  | ToggleLayerVisibility i => toggleLayerVisibility i
  | RestoreProject project => restoreProject cfg project
  end.

(** The operations as the page issues them: the layer list offers
    [setActiveLayer] only for the layers it shows, and a restored project has
    images that decode. *)
Definition decodes (lData : LayerData) : bool :=
  match decode (ld_data lData) with Some _ => true | None => false end.

Definition offered (s : State) (op : Op) : bool :=
  match op with
  | SetActiveLayer i => bool_decide (i ∈ id <$> layers s)
  | RestoreProject project =>
      match p_layers project with
      | Some lds => forallb decodes lds
      | None => true
      end
  | _ => true
  end.

(** Statements of a compiled program, by kind. *)
Definition is_fill (line : string) : bool := String.prefix "  fill(" line.
Definition is_rect (line : string) : bool := String.prefix "  rect(" line.

(** Small canvases and pixels for the examples. *)
Definition cfg3x1 : Config := {| width := 3; height := 1; bgColor := white |}.
Definition cfg2x2 : Config := {| width := 2; height := 2; bgColor := white |}.
Definition redPx : Pixel := RGBA 255 0 0 255.
Definition bluePx : Pixel := RGBA 0 0 255 255.

(** The log a [saveHistoryState] appends to (the entries after the cursor
    are dropped first) and the entry it appends. *)
Definition trimmed (s : State) : list HistoryEntry :=
  if historyStep s <? Z.of_nat (length (history s)) - 1
  then slice0 (historyStep s + 1) (history s) else history s.

Definition snapshot (i : Z) (layer : Layer) : HistoryEntry :=
  {| layerId := i; dataURL := toDataURL (canvas layer) |}.

(** Example sessions on a 3x1 canvas: the background wiped; a second layer
    added and wiped; a second layer added and deleted again. *)
Definition wiped_background : State :=
  exec clearCurrentLayer (exec (init cfg3x1) state).

Definition second_layer_wiped : State :=
  exec clearCurrentLayer
       (exec (addLayer cfg3x1 "Layer 2") (exec (init cfg3x1) state)).

Definition second_layer_deleted : State :=
  exec (deleteLayer 2)
       (exec (addLayer cfg3x1 "Layer 2") (exec (init cfg3x1) state)).

(** On a 2x2 canvas: a transparent second layer is added and the white
    background hidden. The active layer is the visible second one, so the
    pipette is usable. *)
Definition background_hidden : State :=
  exec (toggleLayerVisibility 1)
       (exec (addLayer cfg2x2 "Layer 2") (exec (init cfg2x2) state)).

(** The pixel column at index [k]: the visible layers' pixels laid over
    [base] from the bottom of the stack to the top. *)
Definition column (k : nat) (base : Pixel) (ls : list Layer) : Pixel :=
  foldl (λ p l, if visible l
                then match canvas l !! k with
                     | Some q => source_over p q
                     | None => p
                     end
                else p)
        base ls.

(** The layer object [restoreProject] creates for a saved layer, before its
    image has loaded. *)
Definition blankLayer (cfg : Config) (lData : LayerData) : Layer :=
  {| id := ld_id lData; canvas := createCanvas cfg;
     visible := ld_visible lData; name := ld_name lData |}.

(** The session after the [img.onload] handler of the [k]-th restored layer
    has run with [loadedCount = c]. *)
Definition onload_state (total k : nat) (img : Canvas) (c : nat) (s : State)
  : State :=
  let s1 := set_layers
    (alter (λ l, set_canvas (drawImage img (canvas l)) l) k (layers s)) s in
  if (S c =? total)%nat then
    match last (layers s1) with
    | Some l => set_activeLayerId (Some (id l)) s1
    | None => s1
    end
  else s1.

(** A project whose only layer carries an image that does not decode, and a
    project record without a [layers] array. *)
Definition corrupt_project : Project :=
  {| p_nextLayerId := Some 3;
     p_layers := Some [ {| ld_id := 2; ld_name := "Layer 2"; ld_visible := true;
                           ld_data := Corrupt |} ] |}.

(** A project saved from a two-layer session. *)
Definition saved_project : Project :=
  {| p_nextLayerId := Some 3;
     p_layers := Some [ {| ld_id := 1; ld_name := "Background"; ld_visible := true;
                           ld_data := Encoded [white; white; white; white] |};
                        {| ld_id := 2; ld_name := "Layer 2"; ld_visible := false;
                           ld_data := Encoded [redPx; transparent; transparent;
                                               transparent] |} ] |}.

Definition no_layers_project : Project :=
  {| p_nextLayerId := Some 3; p_layers := None |}.

(** ** The remaining handlers *)

(** [getActiveCtx]: the active layer (with its place in the stack), or
    [null]. *)
Definition getActiveCtx : M (option (nat * Layer)) :=
  s ← get;
  mret (match activeLayerId s with
        | Some a => findLayer a (layers s)
        | None => None
        end).

(** The [projectData] object of [saveProject]. *)
Record ProjectData := {
  version : Z;
  pd_width : Z;
  pd_height : Z;
  pd_nextLayerId : Z;
  pd_layers : list LayerData
}.

Definition saveProject (cfg : Config) : M ProjectData :=
  s ← get;
  mret {| version := 1;
          pd_width := width cfg;
          pd_height := height cfg;
          pd_nextLayerId := nextLayerId s;
          pd_layers :=
            (λ l, {| ld_id := id l; ld_name := name l; ld_visible := visible l;
                     ld_data := toDataURL (canvas l) |}) <$> layers s |}.

(** The downloaded file: [JSON.stringify(projectData)], as [JSON.parse]
    reads it back. [restoreProject] reads [nextLayerId] and [layers] only. *)
Definition JSON_stringify (projectData : ProjectData) : FileText :=
  JSONText {| p_nextLayerId := Some (pd_nextLayerId projectData);
              p_layers := Some (pd_layers projectData) |}.

(** What the page can ask of the session: the buttons, the layer list, the
    shortcuts, the file dialog, the pipette, and the snapshot taken when a
    stroke ends. *)
Inductive Event :=
| ClickAddLayer
| ClickLayer (i : Z)
| ClickVisibility (i : Z)
| ClickDelete (i : Z)
| ClickUndo
| ClickClear
| ClickGenerate
| ChooseFile (file : option FileText)
| Pipette (x y : Z)
| SelectTool (toolName : Tool)
| StrokeEnd (i : Z).

Definition handle (cfg : Config) (ev : Event) : M unit :=
  match ev with
  | ClickAddLayer =>
      s ← get; addLayer cfg ("Layer " +:+ num (Some (nextLayerId s)))
  | ClickLayer i => setActiveLayer i
  | ClickVisibility i => toggleLayerVisibility i
  | ClickDelete i => deleteLayer i
  | ClickUndo => undo
  | ClickClear => clearCurrentLayer
  | ClickGenerate => processAllLayers cfg;; mret tt
  | ChooseFile file => loadProject cfg file
  | Pipette x y => pickColorGlobal cfg x y
  | SelectTool toolName => switchToTool toolName
  | StrokeEnd i => saveHistoryState i
  end.

(** The session after [init] and a sequence of events. *)
Definition session (cfg : Config) (evs : list Event) : State :=
  foldl (λ s ev, exec (handle cfg ev) s) (exec (init cfg) state) evs.

(** The cursor of the log is [-1] or the index of an entry. *)
Definition history_wf (s : State) : Prop :=
  -1 ≤ historyStep s < Z.of_nat (length (history s)).

(** The layer ids are pairwise distinct and below the id counter. *)
Definition ids_fresh (s : State) : Prop :=
  NoDup (id <$> layers s) ∧ Forall (λ i, i < nextLayerId s) (id <$> layers s).

(** [state.nextLayerId++] yields the next integer only for counters of
    magnitude below 2^53, and stays put at 2^53. *)
Definition counter_limit : Z := 9007199254740992.

Definition exact_counter (n : Z) : Prop := - counter_limit ≤ n < counter_limit.

(** A project record as [saveProject] writes them for a session with
    layers: the layers are there, no id occurs twice, and the counter is
    present and above every id; the counter leaves room for [room] further
    increments below 2^53. *)
Definition project_wf (room : Z) (project : Project) : Prop :=
  ∃ lds n,
    p_layers project = Some lds ∧ lds ≠ []
    ∧ NoDup (ld_id <$> lds)
    ∧ p_nextLayerId project = Some n
    ∧ Forall (λ i, i < n) (ld_id <$> lds)
    ∧ - counter_limit ≤ n ∧ n + room < counter_limit.

(** Events that keep the stack non-empty and its ids distinct: every event,
    a file being chosen only if it is unreadable or holds such a project. *)
Definition keeps_ids (room : Z) (ev : Event) : Prop :=
  match ev with
  | ChooseFile (Some (JSONText project)) => project_wf room project
  | _ => True
  end.

(** ** The generated program, as statements *)

(** A colour as the code generator holds it: three numbers read from the
    image data. *)
Definition Colour : Type := option Z * option Z * option Z.

Inductive Stmt :=
| Fill (c : Colour)
| Rect (x y : Z).

(** The text of a statement, as [processAllLayers] writes it. *)
Definition print (st : Stmt) : string :=
  match st with
  | Fill (r, g, b) =>
      "  fill(" +:+ num r +:+ ", " +:+ num g +:+ ", " +:+ num b +:+ ");"
  | Rect x y =>
      "  rect(" +:+ num (Some x) +:+ ", " +:+ num (Some y) +:+ ", 1);"
  end.

(** Running the statements: [fill] selects the colour, [rect(x, y, 1)]
    paints the unit square at [(x, y)] in the selected colour. The result
    lists the squares painted, in order. *)
Fixpoint replay (current : Colour) (program : list Stmt)
  : list (Z * Z * Colour) :=
  match program with
  | [] => []
  | Fill c :: rest => replay c rest
  | Rect x y :: rest => (x, y, current) :: replay current rest
  end.

(** The colour selected after running the statements. *)
Definition selected (current : Colour) (program : list Stmt) : Colour :=
  foldl (λ cur st, match st with Fill c => c | Rect _ _ => cur end)
        current program.

(** The coordinates in scan order, the colour of the image data at a
    coordinate, and the ink pixels with their colours. *)
Definition scanOrder (cfg : Config) : list (Z * Z) :=
  y ← seqZ 0 (height cfg); x ← seqZ 0 (width cfg); [(y, x)].

Definition colourOf (cfg : Config) (data : list Z) (y x : Z) : Colour :=
  let i := (y * width cfg + x) * 4 in
  (at_index data i, at_index data (i + 1), at_index data (i + 2)).

Definition isInk (c : Colour) : bool :=
  lt250 c.1.1 || lt250 c.1.2 || lt250 c.2.

Definition inkPixels (cfg : Config) (data : list Z) : list (Z * Z * Colour) :=
  omap (λ yx, let c := colourOf cfg data yx.1 yx.2 in
              if isInk c then Some (yx.2, yx.1, c) else None)
       (scanOrder cfg).

(** The default [fill] of the drawing runtime. *)
Definition defaultFill : Colour := (Some 255, Some 255, Some 255).

(** The header [processAllLayers] writes before the statements. *)
Definition header (cfg : Config) : list string :=
  [ "function setup() {";
    "  createCanvas(" +:+ num (Some (width cfg)) +:+ ", "
      +:+ num (Some (height cfg)) +:+ ");";
    "}";
    "";
    "function draw() {";
    "  background(280);";
    "  noStroke();";
    "" ].

(** Two sessions with the same log, cursor and bound. *)
Definition same_log (s s' : State) : Prop :=
  history s' = history s ∧ historyStep s' = historyStep s
  ∧ maxHistory s' = maxHistory s.

(** [project.nextLayerId || 1]. *)
Definition restoredCounter (project : Project) : Z :=
  match p_nextLayerId project with
  | Some n => if n =? 0 then 1 else n
  | None => 1
  end.

(** A stack with at least one layer and distinct, counted ids. *)
Definition stack_sound (s : State) : Prop := layers s ≠ [] ∧ ids_fresh s.

(** The layer [restoreProject] ends up with for a saved layer: its image
    drawn onto a blank canvas, or the blank canvas if the image does not
    decode. *)
Definition restoredLayer (cfg : Config) (lData : LayerData) : Layer :=
  match decode (ld_data lData) with
  | Some img => set_canvas (drawImage img (createCanvas cfg)) (blankLayer cfg lData)
  | None => blankLayer cfg lData
  end.

(** Every layer surface has the configured number of pixels. *)
Definition sized (cfg : Config) (c : Canvas) : Prop :=
  length c = (Z.to_nat (width cfg) * Z.to_nat (height cfg))%nat.

Definition layers_sized (cfg : Config) (s : State) : Prop :=
  Forall (λ l, sized cfg (canvas l)) (layers s).

(** The entry [saveProject] writes for a layer. *)
Definition savedLayer (l : Layer) : LayerData :=
  {| ld_id := id l; ld_name := name l; ld_visible := visible l;
     ld_data := toDataURL (canvas l) |}.

(** The colour the scan starts from: [lastR = lastG = lastB = -1]. *)
Definition initLast : Colour := (Some (-1), Some (-1), Some (-1)).

(** The statements a pixel adds, given the last colour selected. *)
Definition pixelStmts (last c : Colour) (y x : Z) : list Stmt :=
  if isInk c
  then (if decide (c = last) then [] else [Fill c]) ++ [Rect x y]
  else [].

(** The scan of [processAllLayers], keeping statements instead of text. *)
Definition scanStmts (cfg : Config) (data : list Z) (yxs : list (Z * Z))
  : Colour * list Stmt :=
  foldl (λ st yx,
           let c := colourOf cfg data yx.1 yx.2 in
           (if isInk c then c else st.1,
            st.2 ++ pixelStmts st.1 c yx.1 yx.2))
        (initLast, []) yxs.

(** A pixel the code generator takes for background: every colour byte of
    its image data is 250 or more. *)
Definition nearWhite (p : Pixel) : Prop :=
  250 ≤ unpremultiply (alpha p) (red p)
  ∧ 250 ≤ unpremultiply (alpha p) (green p)
  ∧ 250 ≤ unpremultiply (alpha p) (blue p).

(** The last colour selected, as the scan holds it. *)
Definition lastOf (acc : Scan) : Colour := (lastR acc, lastG acc, lastB acc).

(** The number of colour runs in a sequence of colours, counted against the
    colour before it: one for each colour that differs from its
    predecessor. *)
Fixpoint runsFrom (last : Colour) (cs : list Colour) : nat :=
  match cs with
  | [] => 0
  | c :: rest => ((if decide (c = last) then 0 else 1) + runsFrom c rest)%nat
  end.

(** Events of a session in which no project is restored: the layer list
    shows the layers of the stack only, and a file, if one is chosen, does
    not parse. *)
Definition allowed (s : State) (ev : Event) : bool :=
  match ev with
  | ClickLayer i => bool_decide (i ∈ id <$> layers s)
  | ChooseFile (Some (JSONText project)) => false
  | _ => true
  end.

Fixpoint play (cfg : Config) (evs : list Event) (s : State) : option State :=
  match evs with
  | [] => Some s
  | ev :: rest =>
      if allowed s ev then play cfg rest (exec (handle cfg ev) s) else None
  end.

(** The last element of a list, or [d] if it is empty. *)
Definition lastOr {A} (d : A) (l : list A) : A := foldl (λ _ x, x) d l.

(** The colours of the ink pixels among the given coordinates, in order. *)
Definition inkColours (cfg : Config) (data : list Z) (yxs : list (Z * Z))
  : list Colour :=
  omap (λ yx, let c := colourOf cfg data yx.1 yx.2 in
              if isInk c then Some c else None) yxs.

(** Whether a statement selects a colour. *)
Definition isFill (st : Stmt) : bool :=
  match st with Fill _ => true | Rect _ _ => false end.

(** ** A restore in progress *)

(** [restoreProject] up to its return: the old stack is dropped, the counter
    set, one blank layer pushed per saved layer and its image load started.
    The result lists the saved layers whose [img.onload] is still to come. *)
Definition restoreProject_call (cfg : Config) (project : Project)
  : M (list LayerData) :=
  (* Clear all existing layers *)
  modify (set_layers []);;
  modify (set_nextLayerId (restoredCounter project));;
  match p_layers project with
  | None => throw TypeError
  | Some lds =>
      forEach (λ lData,
        modify (λ s, set_layers (layers s ++ [blankLayer cfg lData]) s)) lds;;
      mret lds
  end.











(** The counter can take [room] more increments. *)
Definition counter_room (room : Z) (s : State) : Prop :=
  - counter_limit ≤ nextLayerId s ∧ nextLayerId s + room < counter_limit.

(** * Properties *)

(** ** Running statements *)

Ltac unfold_M :=
  unfold mbind, M_bind, mret, M_ret, bind, ret, modify, get, throw,
    try_catch, exec, completion in *.

Lemma exec_bind {A B} (m : M A) (k : A → M B) s v :
  m s = (Normal v, exec m s) → exec (m ≫= k) s = exec (k v) (exec m s).
Proof. unfold_M. intros ->. reflexivity. Qed.

(** ** Recording *)

Lemma saveHistoryState_missing s i :
  findLayer i (layers s) = None → saveHistoryState i s = (Normal tt, s).
Proof. intros H. unfold saveHistoryState. unfold_M. rewrite H. reflexivity. Qed.

Lemma saveHistoryState_found s i idx layer :
  findLayer i (layers s) = Some (idx, layer) →
  saveHistoryState i s =
    (Normal tt,
     let h := trimmed s ++ [snapshot i layer] in
     if maxHistory s <? Z.of_nat (length h)
     then set_historyStep (historyStep s + 1 - 1) (set_history (shift h) s)
     else set_historyStep (historyStep s + 1) (set_history h s)).
Proof.
  intros H. unfold saveHistoryState, trimmed, snapshot. unfold_M. rewrite H.
  destruct s as [t c ls a n h st mx al]; cbn.
  destruct (st <? Z.of_nat (length h) - 1); cbn;
    match goal with |- context [mx <? ?n] => destruct (mx <? n) end;
    reflexivity.
Qed.

Lemma saveHistoryState_normal s i : completion (saveHistoryState i) s = Normal tt.
Proof.
  unfold completion. destruct (findLayer i (layers s)) as [[idx layer]|] eqn:H.
  - rewrite (saveHistoryState_found _ _ _ _ H). reflexivity.
  - rewrite (saveHistoryState_missing _ _ H). reflexivity.
Qed.

Lemma trimmed_length s : (length (trimmed s) ≤ length (history s))%nat.
Proof.
  unfold trimmed. destruct (historyStep s <? _); [|lia].
  unfold slice0. rewrite length_take. apply Nat.le_min_r.
Qed.

Lemma saveHistoryState_bound s i :
  Z.of_nat (length (history s)) ≤ maxHistory s →
  Z.of_nat (length (history (exec (saveHistoryState i) s))) ≤ maxHistory s
  ∧ maxHistory (exec (saveHistoryState i) s) = maxHistory s.
Proof.
  intros Hb. unfold exec.
  destruct (findLayer i (layers s)) as [[idx layer]|] eqn:H.
  - rewrite (saveHistoryState_found _ _ _ _ H). cbn zeta.
    pose proof (trimmed_length s) as Ht.
    destruct (Z.ltb_spec (maxHistory s)
                (Z.of_nat (length (trimmed s ++ [snapshot i layer]))));
      cbn; unfold shift; rewrite ?length_drop, length_app in *; cbn in *; lia.
  - rewrite (saveHistoryState_missing _ _ H). cbn. lia.
Qed.

Lemma forEach_saveHistoryState_bound ids s :
  Z.of_nat (length (history s)) ≤ maxHistory s →
  Z.of_nat (length (history (exec (forEach saveHistoryState ids) s)))
    ≤ maxHistory s
  ∧ maxHistory (exec (forEach saveHistoryState ids) s) = maxHistory s.
Proof.
  revert s. induction ids as [|i ids IH]; intros s Hb; [cbn; lia|].
  cbn [forEach].
  rewrite (exec_bind _ _ s tt).
  - destruct (saveHistoryState_bound s i Hb) as [H1 H2].
    destruct (IH (exec (saveHistoryState i) s)) as [H3 H4]; [lia|].
    rewrite <- H2. split; [exact H3 | lia].
  - pose proof (saveHistoryState_normal s i) as Hn. unfold completion, exec in *.
    destruct (saveHistoryState i s); cbn in *; congruence.
Qed.

(** C4. Whatever layers are recorded, in whatever order, a log that starts
    within [maxHistory] stays within it. When the append makes the log longer
    than [maxHistory], the oldest entry is dropped and the cursor, advanced
    by the append, is moved back by one: it designates the same entry as
    before the eviction. *)
Theorem saveHistoryState_capacity (ids : list Z) (s : State) :
  Z.of_nat (length (history s)) ≤ maxHistory s →
  Z.of_nat (length (history (exec (forEach saveHistoryState ids) s)))
    ≤ maxHistory (exec (forEach saveHistoryState ids) s)
  ∧ maxHistory (exec (forEach saveHistoryState ids) s) = maxHistory s
  ∧ ∀ i idx layer,
      findLayer i (layers s) = Some (idx, layer) →
      let h := trimmed s ++ [snapshot i layer] in
      let s' := exec (saveHistoryState i) s in
      maxHistory s < Z.of_nat (length h) →
      history s' = drop 1 h
      ∧ historyStep s' = historyStep s + 1 - 1
      ∧ (0 ≤ historyStep s →
         at_index (history s') (historyStep s') = at_index h (historyStep s + 1)).
Proof.
  intros Hb. destruct (forEach_saveHistoryState_bound ids s Hb) as [H1 H2].
  split; [lia|]. split; [exact H2|].
  intros i idx layer Hf h s' Hover. subst s'. unfold exec.
  rewrite (saveHistoryState_found _ _ _ _ Hf). cbn zeta. fold h.
  apply Z.ltb_lt in Hover. rewrite Hover. cbn.
  split; [reflexivity|]. split; [reflexivity|].
  intros Hc. unfold at_index, shift.
  replace (historyStep s + 1 - 1 <? 0) with false by lia.
  replace (historyStep s + 1 <? 0) with false by lia.
  rewrite lookup_drop. f_equal. lia.
Qed.

(** The bound at work: twenty-five recordings on the freshly initialised
    session leave exactly twenty entries. *)
Lemma saveHistoryState_capacity_witness :
  Z.of_nat (length (history (exec (forEach saveHistoryState (replicate 25 1))
                                  (exec (init cfg3x1) state))))
    ≤ maxHistory (exec (forEach saveHistoryState (replicate 25 1))
                       (exec (init cfg3x1) state)).
Proof.
  apply (saveHistoryState_capacity (replicate 25 1) (exec (init cfg3x1) state)).
  vm_compute. discriminate.
Defined.

(** ** Deleting the last layer *)

(** C2 (as amended). On a stack of exactly one layer [deleteLayer] changes
    nothing at all in the session and returns normally: there is no value,
    exception or alert by which the caller could tell the refusal. *)
Theorem deleteLayer_last_layer (s : State) (i : Z) :
  length (layers s) = 1%nat → deleteLayer i s = (Normal tt, s).
Proof.
  intros H. unfold deleteLayer. unfold_M. rewrite H. reflexivity.
Qed.

Lemma deleteLayer_last_layer_witness :
  deleteLayer 1 (exec (init cfg2x2) state) = (Normal tt, exec (init cfg2x2) state).
Proof.
  apply (deleteLayer_last_layer (exec (init cfg2x2) state) 1). reflexivity.
Defined.

(** C2 as stated fails on its second half: deleting the only layer of the
    freshly initialised session is refused, and nothing is reported. *)
Lemma deleteLayer_last_layer_unreported :
  length (layers (exec (init cfg2x2) state)) = 1%nat
  ∧ layers (exec (deleteLayer 1) (exec (init cfg2x2) state))
    = layers (exec (init cfg2x2) state)
  ∧ ¬ reported (deleteLayer 1) (exec (init cfg2x2) state).
Proof.
  split; [reflexivity|]. split; [reflexivity|].
  intros [[e He] | Ha].
  - vm_compute in He. discriminate.
  - apply Ha. reflexivity.
Qed.

(** ** The code generator *)

Lemma scanPixel_ink cfg data y x acc :
  let i := (y * width cfg + x) * 4 in
  let r := at_index data i in
  let g := at_index data (i + 1) in
  let b := at_index data (i + 2) in
  lt250 r || lt250 g || lt250 b = true →
  rects (scanPixel cfg data y x acc) =
    rects acc
    ++ (if bool_decide (r = lastR acc ∧ g = lastG acc ∧ b = lastB acc) then []
        else ["  fill(" +:+ num r +:+ ", " +:+ num g +:+ ", " +:+ num b +:+ ");"])
    ++ ["  rect(" +:+ num (Some x) +:+ ", " +:+ num (Some y) +:+ ", 1);"].
Proof.
  intros i r g b Hink. unfold scanPixel. fold i. fold r g b. rewrite Hink.
  destruct (decide (r = lastR acc ∧ g = lastG acc ∧ b = lastB acc)) as [Heq|Hne].
  - rewrite bool_decide_eq_false_2 by (intros [?|[?|?]]; tauto).
    rewrite (bool_decide_eq_true_2 _ Heq). reflexivity.
  - rewrite bool_decide_eq_true_2.
    + rewrite (bool_decide_eq_false_2 _ Hne). cbn. rewrite <- app_assoc. reflexivity.
    + destruct (decide (r = lastR acc)); [|tauto].
      destruct (decide (g = lastG acc)); [|tauto].
      destruct (decide (b = lastB acc)); tauto.
Qed.

(** C7. The 3x1 buffer red, red, blue compiles to the header followed by
    [fill] red, two rectangles, [fill] blue, one rectangle: two colour
    selections and three rectangles. In general an ink pixel adds its
    rectangle, preceded by a [fill] exactly when its colour is not the last
    one selected. *)
Theorem processAllLayers_coalesces_colors :
  compileLines cfg3x1 [redPx; redPx; bluePx] =
    [ "function setup() {"; "  createCanvas(3, 1);"; "}"; "";
      "function draw() {"; "  background(280);"; "  noStroke();"; "";
      "  fill(255, 0, 0);"; "  rect(0, 0, 1);"; "  rect(1, 0, 1);";
      "  fill(0, 0, 255);"; "  rect(2, 0, 1);"; "}" ]
  ∧ filter is_fill (compileLines cfg3x1 [redPx; redPx; bluePx])
    = ["  fill(255, 0, 0);"; "  fill(0, 0, 255);"]
  ∧ length (filter is_rect (compileLines cfg3x1 [redPx; redPx; bluePx])) = 3%nat
  ∧ completion (processAllLayers cfg3x1)
      (set_layers [ {| id := 1; canvas := [redPx; redPx; bluePx];
                       visible := true; name := "Background" |} ] state)
    = Normal (compileCode cfg3x1 [redPx; redPx; bluePx])
  ∧ ∀ cfg data y x acc,
      lt250 (at_index data ((y * width cfg + x) * 4))
      || lt250 (at_index data ((y * width cfg + x) * 4 + 1))
      || lt250 (at_index data ((y * width cfg + x) * 4 + 2)) = true →
      rects (scanPixel cfg data y x acc) =
        rects acc
        ++ (if bool_decide
                 (at_index data ((y * width cfg + x) * 4) = lastR acc
                  ∧ at_index data ((y * width cfg + x) * 4 + 1) = lastG acc
                  ∧ at_index data ((y * width cfg + x) * 4 + 2) = lastB acc)
            then []
            else ["  fill(" +:+ num (at_index data ((y * width cfg + x) * 4))
                  +:+ ", " +:+ num (at_index data ((y * width cfg + x) * 4 + 1))
                  +:+ ", " +:+ num (at_index data ((y * width cfg + x) * 4 + 2))
                  +:+ ");"])
        ++ ["  rect(" +:+ num (Some x) +:+ ", " +:+ num (Some y) +:+ ", 1);"].
Proof.
  split; [vm_compute; reflexivity|].
  split; [vm_compute; reflexivity|].
  split; [vm_compute; reflexivity|].
  split; [vm_compute; reflexivity|].
  intros cfg data y x acc Hink. exact (scanPixel_ink cfg data y x acc Hink).
Qed.

(** C8. The generated text is a function of the image data of the flattened
    canvas alone: two sessions whose visible layers flatten to the same
    pixel data get the same text, whatever else differs; generating leaves
    the session as it was, so generating again gives the same text. *)
Theorem processAllLayers_deterministic (cfg : Config) (s1 s2 : State) :
  getImageData (flattenLayers cfg (layers s1))
    = getImageData (flattenLayers cfg (layers s2)) →
  completion (processAllLayers cfg) s1 = completion (processAllLayers cfg) s2
  ∧ exec (processAllLayers cfg) s1 = s1
  ∧ (processAllLayers cfg;; processAllLayers cfg) s1 = processAllLayers cfg s1.
Proof.
  intros H. unfold processAllLayers, compileCode, compileLines. unfold_M. cbn.
  rewrite H. auto.
Qed.

(** Two sessions that differ in a hidden layer, the active layer and the
    history, and flatten to the same pixels. *)
Lemma processAllLayers_deterministic_witness :
  completion (processAllLayers cfg2x2) (exec (init cfg2x2) state)
  = completion (processAllLayers cfg2x2)
      (exec (addLayer cfg2x2 "Layer 2";; toggleLayerVisibility 2)
            (exec (init cfg2x2) state)).
Proof.
  apply (processAllLayers_deterministic cfg2x2 (exec (init cfg2x2) state)
           (exec (addLayer cfg2x2 "Layer 2";; toggleLayerVisibility 2)
                 (exec (init cfg2x2) state))).
  vm_compute. reflexivity.
Defined.

(** ** Undo *)

Lemma findPrevData_found h a n i prev :
  (i ≤ n)%nat → (n < length h)%nat →
  h !! i = Some prev → layerId prev = layerId a →
  (∀ j e, (i < j)%nat → (j ≤ n)%nat → h !! j = Some e → layerId e ≠ layerId a) →
  findPrevData h (Some a) n = Normal (Some (dataURL prev)).
Proof.
  intros Hin Hn Hi Hid Hlater.
  induction n as [|n IH].
  - assert (i = 0%nat) as -> by lia.
    cbn. rewrite Hi. rewrite Hid, Z.eqb_refl. reflexivity.
  - destruct (decide (i = S n)) as [->|Hne].
    + cbn [findPrevData]. rewrite Hi, Hid, Z.eqb_refl. reflexivity.
    + destruct (lookup_lt_is_Some_2 h (S n) Hn) as [e He].
      cbn [findPrevData]. rewrite He.
      assert (layerId e ≠ layerId a) as Hd by (apply (Hlater (S n)); [lia|lia|done]).
      apply Z.eqb_neq in Hd. rewrite Hd.
      apply IH; [lia|lia|].
      intros j e' ? ? ?. apply (Hlater j); [lia|lia|done].
Qed.

Lemma findPrevData_none h a n :
  (n < length h)%nat →
  (∀ j e, (j ≤ n)%nat → h !! j = Some e → layerId e ≠ layerId a) →
  findPrevData h (Some a) n = Normal None.
Proof.
  intros Hn Hall.
  induction n as [|n IH].
  - destruct (lookup_lt_is_Some_2 h 0%nat Hn) as [e He].
    cbn. rewrite He.
    assert (layerId e ≠ layerId a) as Hd by (apply (Hall 0%nat); [lia|done]).
    apply Z.eqb_neq in Hd. rewrite Hd. reflexivity.
  - destruct (lookup_lt_is_Some_2 h (S n) Hn) as [e He].
    cbn [findPrevData]. rewrite He.
    assert (layerId e ≠ layerId a) as Hd by (apply (Hall (S n)); [lia|done]).
    apply Z.eqb_neq in Hd. rewrite Hd.
    apply IH; [lia|]. intros j e' ? ?. apply (Hall j); [lia|done].
Qed.

Lemma findPrevData_normal h a n :
  (n < length h)%nat → ∃ prevData, findPrevData h (Some a) n = Normal prevData.
Proof.
  intros Hn. induction n as [|n IH].
  - destruct (lookup_lt_is_Some_2 h 0%nat Hn) as [e He].
    cbn. rewrite He. destruct (layerId e =? layerId a); eauto.
  - destruct (lookup_lt_is_Some_2 h (S n) Hn) as [e He].
    cbn [findPrevData]. rewrite He.
    destruct (layerId e =? layerId a); [eauto|]. apply IH. lia.
Qed.

Lemma at_index_Some {A} (a : list A) i x :
  at_index a i = Some x → 0 ≤ i ∧ a !! Z.to_nat i = Some x ∧ i < Z.of_nat (length a).
Proof.
  unfold at_index. destruct (Z.ltb_spec i 0) as [Hneg|Hpos]; [discriminate|].
  intros Hx. split; [lia|]. split; [exact Hx|].
  apply lookup_lt_Some in Hx. lia.
Qed.

(** What [undo] does once it has an entry to undo. *)
Lemma undo_step s a :
  0 < historyStep s → at_index (history s) (historyStep s) = Some a →
  undo s =
    let s' := set_historyStep (historyStep s - 1) s in
    match findPrevData (history s) (Some a) (Z.to_nat (historyStep s - 1)) with
    | Throw e => (Throw e, s')
    | Normal prevData =>
        match findLayer (layerId a) (layers s), prevData with
        | Some (idx, layer), Some d =>
            match decode d with
            | Some img =>
                (Normal tt,
                 set_layers
                   (<[idx := set_canvas (drawImage img (clearRect (canvas layer)))
                                        layer]> (layers s)) s')
            | None => (Normal tt, s')
            end
        | _, _ => (Normal tt, s')
        end
    end.
Proof.
  intros Hpos Ha. unfold undo, undo_onload. unfold_M.
  apply Z.ltb_lt in Hpos. rewrite Hpos. rewrite Ha.
  destruct s as [t c ls act n h st mx al]; cbn in *.
  destruct (findPrevData h (Some a) (Z.to_nat (st - 1))) as [prevData|e];
    [|reflexivity].
  destruct (list_find _ ls) as [[idx layer]|]; [|reflexivity].
  destruct prevData as [d|]; [|reflexivity].
  destruct (decode d); reflexivity.
Qed.

Lemma undo_bottom s : historyStep s ≤ 0 → undo s = (Normal tt, s).
Proof.
  intros H. unfold undo. unfold_M.
  replace (0 <? historyStep s) with false by lia. reflexivity.
Qed.

Lemma source_over_transparent p : source_over transparent p = p.
Proof.
  destruct p as [r g b a]. unfold source_over, over_channel; cbn.
  rewrite !Z.add_0_r. reflexivity.
Qed.

Lemma source_over_opaque d p : alpha p = 255 → source_over d p = p.
Proof.
  destruct p as [r g b a]. cbn. intros ->.
  unfold source_over, over_channel; cbn.
  rewrite !Z.mul_0_r. cbn. rewrite !Z.add_0_r. reflexivity.
Qed.

(** Drawing onto a wiped canvas of the same size leaves exactly the image. *)
Lemma drawImage_clearRect img c :
  length img = length c → drawImage img (clearRect c) = img.
Proof.
  revert img. induction c as [|d c IH]; intros [|p img] Hlen;
    cbn in *; try discriminate; [reflexivity|].
  rewrite source_over_transparent. f_equal. apply IH. lia.
Qed.


(** C5. With the cursor at 0 or below [undo] does nothing. Otherwise, for
    [entry] the log entry at the cursor, the cursor moves down by one and the
    log is searched from the new cursor towards 0: if [prev] is the nearest
    entry for the same layer, the surface of that layer becomes the image
    decoded from [prev]'s snapshot; if there is none, only the cursor moves
    and every surface is left as it was. *)
Theorem undo_restores_previous_snapshot (s : State) :
  (historyStep s ≤ 0 → undo s = (Normal tt, s))
  ∧ ∀ entry,
      0 < historyStep s →
      at_index (history s) (historyStep s) = Some entry →
      (∀ (i : nat) prev img idx layer,
          Z.of_nat i ≤ historyStep s - 1 →
          history s !! i = Some prev →
          layerId prev = layerId entry →
          (∀ (j : nat) e, (i < j)%nat → Z.of_nat j ≤ historyStep s - 1 →
                          history s !! j = Some e → layerId e ≠ layerId entry) →
          decode (dataURL prev) = Some img →
          findLayer (layerId entry) (layers s) = Some (idx, layer) →
          length img = length (canvas layer) →
          undo s =
            (Normal tt,
             set_layers (<[idx := set_canvas img layer]> (layers s))
                        (set_historyStep (historyStep s - 1) s)))
      ∧ ((∀ (j : nat) e, Z.of_nat j ≤ historyStep s - 1 →
                         history s !! j = Some e → layerId e ≠ layerId entry) →
         undo s = (Normal tt, set_historyStep (historyStep s - 1) s)).
Proof.
  split; [apply undo_bottom|].
  intros entry Hpos Hentry.
  destruct (at_index_Some _ _ _ Hentry) as (_ & _ & Hlen).
  split.
  - intros i prev img idx layer Hi Hprev Hid Hnearest Hdec Hlayer Hsize.
    rewrite (undo_step s entry Hpos Hentry). cbn zeta.
    rewrite (findPrevData_found (history s) entry _ i prev); try done; try lia.
    + rewrite Hlayer, Hdec. rewrite drawImage_clearRect; [reflexivity|].
      exact Hsize.
    + intros j e ? ? ?. apply (Hnearest j); [lia|lia|done].
  - intros Hnone.
    rewrite (undo_step s entry Hpos Hentry). cbn zeta.
    rewrite (findPrevData_none (history s) entry); [| lia |].
    + destruct (findLayer _ _) as [[? ?]|]; reflexivity.
    + intros j e ? ?. apply (Hnone j); [lia|done].
Qed.

(** Wiping the background and undoing brings the white background back. *)
Lemma undo_restores_previous_snapshot_witness :
  layers (exec undo wiped_background)
  = [ {| id := 1; canvas := [white; white; white]; visible := true;
         name := "Background" |} ].
Proof.
  pose proof (proj1 (proj2 (undo_restores_previous_snapshot wiped_background)
    {| layerId := 1; dataURL := Encoded [transparent; transparent; transparent] |}
    ltac:(vm_compute; reflexivity) ltac:(vm_compute; reflexivity))
    0%nat {| layerId := 1; dataURL := Encoded [white; white; white] |}
    [white; white; white] 0%nat
    {| id := 1; canvas := [transparent; transparent; transparent];
       visible := true; name := "Background" |}
    ltac:(vm_compute; discriminate) ltac:(vm_compute; reflexivity)
    ltac:(reflexivity)
    ltac:(intros j e Hj1 Hj2;
          change (historyStep wiped_background) with 1 in Hj2; lia)
    ltac:(reflexivity) ltac:(vm_compute; reflexivity) ltac:(reflexivity))
    as Hundo.
  unfold exec at 1. rewrite Hundo. reflexivity.
Defined.

(** C6. A layer whose id is not the one of the entry being undone is found
    after [undo] at the same position with the same pixels, visibility and
    name; the stack keeps its length. *)
Theorem undo_frame (s : State) (k : nat) (L : Layer) :
  layers s !! k = Some L →
  (∀ entry, 0 < historyStep s →
            at_index (history s) (historyStep s) = Some entry →
            id L ≠ layerId entry) →
  layers (exec undo s) !! k = Some L
  ∧ length (layers (exec undo s)) = length (layers s).
Proof.
  intros HL Hother. unfold exec.
  destruct (Z.le_gt_cases (historyStep s) 0) as [Hle|Hpos].
  { rewrite (undo_bottom s Hle). auto. }
  apply Z.gt_lt_iff in Hpos.
  assert (0 < historyStep s) as Hpos' by lia.
  destruct (at_index (history s) (historyStep s)) as [entry|] eqn:Hentry.
  - specialize (Hother entry Hpos' eq_refl).
    rewrite (undo_step s entry Hpos' Hentry). cbn zeta.
    destruct (findPrevData _ _ _) as [prevData|e]; [|destruct s; cbn; auto].
    destruct (findLayer (layerId entry) (layers s)) as [[idx layer]|] eqn:Hfind;
      [|destruct s; cbn; auto].
    destruct prevData as [d|]; [|destruct s; cbn; auto].
    destruct (decode d) as [img|]; [|destruct s; cbn; auto].
    apply list_find_Some in Hfind as (Hidx & Hid & _).
    assert (idx ≠ k) as Hne by (intros ->; congruence).
    destruct s; cbn in *.
    rewrite list_lookup_insert_ne by done. rewrite length_insert. auto.
  - unfold undo. unfold_M.
    replace (0 <? historyStep s) with true by lia. rewrite Hentry.
    destruct s as [t c ls act n h st mx al]; cbn in *.
    destruct (findPrevData h None (Z.to_nat (st - 1))) as [prevData|e]; auto.
Qed.

(** After painting on two layers, undoing the stroke on the upper one leaves
    the background layer where and as it was. *)
Lemma undo_frame_witness :
  layers (exec undo second_layer_wiped) !! 0%nat
  = Some {| id := 1; canvas := [white; white; white]; visible := true;
            name := "Background" |}.
Proof.
  apply (undo_frame
    second_layer_wiped
    0%nat
    {| id := 1; canvas := [white; white; white]; visible := true;
       name := "Background" |}).
  - reflexivity.
  - intros entry _ Hentry. vm_compute in Hentry.
    injection Hentry as <-. cbn. discriminate.
Defined.

(** C10. When the entry at the cursor belongs to a layer that is no longer in
    the stack, [undo] completes normally, moves the cursor down by one and
    changes nothing else: no surface, no alert. *)
Theorem undo_deleted_layer (s : State) (entry : HistoryEntry) :
  0 < historyStep s →
  at_index (history s) (historyStep s) = Some entry →
  layerId entry ∉ id <$> layers s →
  undo s = (Normal tt, set_historyStep (historyStep s - 1) s).
Proof.
  intros Hpos Hentry Hgone.
  destruct (at_index_Some _ _ _ Hentry) as (_ & _ & Hlen).
  rewrite (undo_step s entry Hpos Hentry). cbn zeta.
  destruct (findPrevData_normal (history s) entry (Z.to_nat (historyStep s - 1)))
    as [prevData ->]; [lia|].
  destruct (findLayer (layerId entry) (layers s)) as [[idx layer]|] eqn:Hfind;
    [|reflexivity].
  apply list_find_Some in Hfind as (Hidx & Hid & _).
  exfalso. apply Hgone. apply list_elem_of_fmap. exists layer.
  split; [done|]. apply list_elem_of_lookup. eauto.
Qed.

(** A second layer is added and deleted again; undoing its creation entry
    only moves the cursor. *)
Lemma undo_deleted_layer_witness :
  undo second_layer_deleted
  = (Normal tt,
     set_historyStep 0
       second_layer_deleted).
Proof.
  apply (undo_deleted_layer
    second_layer_deleted
    {| layerId := 2; dataURL := Encoded [transparent; transparent; transparent] |}).
  - vm_compute. reflexivity.
  - vm_compute. reflexivity.
  - vm_compute. intros H. apply list_elem_of_In in H. cbn in H. intuition discriminate.
Defined.

(** ** Colour picking and compositing *)

Lemma drawImage_lookup img dst k d :
  dst !! k = Some d →
  drawImage img dst !! k
  = Some (match img !! k with Some p => source_over d p | None => d end).
Proof.
  revert img k. induction dst as [|d0 dst IH]; intros img k Hk; [done|].
  destruct img as [|p img]; destruct k as [|k]; cbn in *.
  - exact Hk.
  - rewrite Hk. reflexivity.
  - injection Hk as ->. reflexivity.
  - apply IH. exact Hk.
Qed.

Lemma flattenFrom_lookup base ls k b :
  base !! k = Some b → flattenFrom base ls !! k = Some (column k b ls).
Proof.
  revert base b. unfold flattenFrom, column.
  induction ls as [|l ls IH]; intros base b Hb; cbn; [done|].
  destruct (visible l).
  - apply IH. apply drawImage_lookup. exact Hb.
  - apply IH. exact Hb.
Qed.

Lemma pixelAt_inside cfg c x y :
  0 ≤ x < width cfg → 0 ≤ y < height cfg →
  pixelAt cfg c x y = c !! Z.to_nat (y * width cfg + x).
Proof.
  intros Hx Hy. unfold pixelAt.
  replace (0 <=? x) with true by lia. replace (x <? width cfg) with true by lia.
  replace (0 <=? y) with true by lia. replace (y <? height cfg) with true by lia.
  reflexivity.
Qed.

Lemma pickCanvas_column cfg x y ls :
  0 ≤ x < width cfg → 0 ≤ y < height cfg →
  pickCanvas cfg x y ls
  = [column (Z.to_nat (y * width cfg + x)) transparent ls].
Proof.
  intros Hx Hy. unfold pickCanvas, column. generalize transparent.
  induction ls as [|l ls IH]; intros p; cbn; [done|].
  unfold drawImage_1x1 at 2. rewrite (pixelAt_inside cfg _ x y Hx Hy).
  destruct (visible l); [|apply IH].
  destruct (canvas l !! _); cbn; apply IH.
Qed.

Lemma createCanvas_lookup cfg x y :
  0 ≤ x < width cfg → 0 ≤ y < height cfg →
  createCanvas cfg !! Z.to_nat (y * width cfg + x) = Some transparent.
Proof.
  intros Hx Hy. unfold createCanvas. apply lookup_replicate_2. nia.
Qed.

Lemma getImageData_lookup c k p :
  c !! k = Some p →
  getImageData c !! (4 * k)%nat = Some (unpremultiply (alpha p) (red p))
  ∧ getImageData c !! (4 * k + 1)%nat = Some (unpremultiply (alpha p) (green p))
  ∧ getImageData c !! (4 * k + 2)%nat = Some (unpremultiply (alpha p) (blue p)).
Proof.
  revert k. induction c as [|q c IH]; intros k Hk; [done|].
  destruct k as [|k]; cbn in Hk.
  - injection Hk as ->. cbn. auto.
  - destruct (IH k Hk) as (H0 & H1 & H2).
    replace (4 * S k)%nat with (S (S (S (S (4 * k))))) by lia.
    cbn [getImageData mbind list_bind pixelBytes app plus lookup list_lookup] in *.
    auto.
Qed.

Lemma colorAt_lookup cfg tempC x y p :
  0 ≤ x < width cfg → 0 ≤ y < height cfg →
  tempC !! Z.to_nat (y * width cfg + x) = Some p →
  colorAt cfg tempC x y
  = rgbToHex (unpremultiply (alpha p) (red p)) (unpremultiply (alpha p) (green p))
             (unpremultiply (alpha p) (blue p)).
Proof.
  intros Hx Hy Hp. unfold colorAt.
  destruct (getImageData_lookup _ _ _ Hp) as (H0 & H1 & H2).
  assert (0 ≤ y * width cfg + x) as Hk by nia.
  unfold at_index.
  replace ((y * width cfg + x) * 4 <? 0) with false by lia.
  replace ((y * width cfg + x) * 4 + 1 <? 0) with false by lia.
  replace ((y * width cfg + x) * 4 + 2 <? 0) with false by lia.
  replace (Z.to_nat ((y * width cfg + x) * 4))
    with (4 * Z.to_nat (y * width cfg + x))%nat by lia.
  replace (Z.to_nat ((y * width cfg + x) * 4 + 1))
    with (4 * Z.to_nat (y * width cfg + x) + 1)%nat by lia.
  replace (Z.to_nat ((y * width cfg + x) * 4 + 2))
    with (4 * Z.to_nat (y * width cfg + x) + 2)%nat by lia.
  rewrite H0, H1, H2. reflexivity.
Qed.

Lemma pickColorGlobal_color cfg s x y :
  0 ≤ x < width cfg → 0 ≤ y < height cfg →
  color (exec (pickColorGlobal cfg x y) s)
  = let p := column (Z.to_nat (y * width cfg + x)) transparent (layers s) in
    rgbToHex (unpremultiply (alpha p) (red p)) (unpremultiply (alpha p) (green p))
             (unpremultiply (alpha p) (blue p)).
Proof.
  intros Hx Hy. unfold pickColorGlobal, switchToTool. unfold_M.
  rewrite (pickCanvas_column cfg x y _ Hx Hy). reflexivity.
Qed.

(** Above a visible, fully opaque pixel the column no longer depends on what
    it started from. *)
Lemma column_opaque k b1 b2 ls l p :
  l ∈ ls → visible l = true → canvas l !! k = Some p → alpha p = 255 →
  column k b1 ls = column k b2 ls.
Proof.
  intros Hin Hvis Hp Ha.
  apply list_elem_of_split in Hin as (l1 & l2 & ->).
  unfold column. rewrite !foldl_app. cbn. rewrite Hvis, Hp.
  rewrite !(source_over_opaque _ p Ha). reflexivity.
Qed.

(** C3 (as amended). Inside the canvas, the picked colour is the colour at
    [(x, y)] of the visible layers flattened onto a transparent canvas, not
    onto the white base. It is the colour of the white-based flattened canvas
    whenever some visible layer is fully opaque at [(x, y)]. *)
Theorem pickColorGlobal_composite (cfg : Config) (s : State) (x y : Z) :
  0 ≤ x < width cfg → 0 ≤ y < height cfg →
  color (exec (pickColorGlobal cfg x y) s)
    = colorAt cfg (flattenFrom (createCanvas cfg) (layers s)) x y
  ∧ ((∃ l p, l ∈ layers s ∧ visible l = true
             ∧ pixelAt cfg (canvas l) x y = Some p ∧ alpha p = 255) →
     color (exec (pickColorGlobal cfg x y) s)
       = colorAt cfg (flattenLayers cfg (layers s)) x y).
Proof.
  intros Hx Hy. rewrite (pickColorGlobal_color cfg s x y Hx Hy). cbn zeta.
  pose proof (createCanvas_lookup cfg x y Hx Hy) as Hblank.
  split.
  - rewrite (colorAt_lookup cfg _ x y _ Hx Hy
               (flattenFrom_lookup _ (layers s) _ _ Hblank)).
    reflexivity.
  - intros (l & p & Hin & Hvis & Hp & Ha).
    rewrite (pixelAt_inside cfg _ x y Hx Hy) in Hp.
    assert (fillRect white (createCanvas cfg) !! Z.to_nat (y * width cfg + x)
            = Some (source_over transparent white)) as Hwhite.
    { unfold fillRect. rewrite list_lookup_fmap, Hblank. reflexivity. }
    unfold flattenLayers.
    rewrite (colorAt_lookup cfg _ x y _ Hx Hy
               (flattenFrom_lookup _ (layers s) _ _ Hwhite)).
    rewrite (column_opaque _ transparent (source_over transparent white)
               _ l p Hin Hvis Hp Ha).
    reflexivity.
Qed.

(** On the freshly initialised session the picker reads the white of the
    background layer, as the flattened canvas does. *)
Lemma pickColorGlobal_composite_witness :
  color (exec (pickColorGlobal cfg2x2 1 1) (exec (init cfg2x2) state))
  = colorAt cfg2x2 (flattenLayers cfg2x2 (layers (exec (init cfg2x2) state))) 1 1.
Proof.
  refine (proj2 (pickColorGlobal_composite cfg2x2 (exec (init cfg2x2) state) 1 1
                   _ _) _).
  - cbn. lia.
  - cbn. lia.
  - exists {| id := 1; canvas := [white; white; white; white]; visible := true;
              name := "Background" |}, white.
    split; [|split; [|split]]; try reflexivity.
    apply list_elem_of_here.
Defined.

(** C3 as stated fails where no visible layer covers the pixel: with the
    background hidden under a transparent layer the picker returns black,
    while the flattened canvas holds the white of its base. *)
Lemma pickColorGlobal_misses_white_base :
  color (exec (pickColorGlobal cfg2x2 0 0) background_hidden) = "#000000"
  ∧ colorAt cfg2x2 (flattenLayers cfg2x2 (layers background_hidden)) 0 0
    = "#ffffff"
  ∧ color (exec (pickColorGlobal cfg2x2 0 0) background_hidden)
    ≠ colorAt cfg2x2 (flattenLayers cfg2x2 (layers background_hidden)) 0 0.
Proof.
  split; [vm_compute; reflexivity|].
  split; [vm_compute; reflexivity|].
  vm_compute. discriminate.
Qed.

(** ** The active layer *)

Lemma saveHistoryState_stack s i :
  layers (exec (saveHistoryState i) s) = layers s
  ∧ activeLayerId (exec (saveHistoryState i) s) = activeLayerId s.
Proof.
  unfold exec. destruct (findLayer i (layers s)) as [[idx layer]|] eqn:H.
  - rewrite (saveHistoryState_found _ _ _ _ H). cbn zeta.
    destruct (maxHistory s <? _); destruct s; cbn; auto.
  - rewrite (saveHistoryState_missing _ _ H). auto.
Qed.

Lemma addLayer_stack cfg name s :
  id <$> layers (exec (addLayer cfg name) s) = (id <$> layers s) ++ [nextLayerId s]
  ∧ activeLayerId (exec (addLayer cfg name) s) = Some (nextLayerId s).
Proof.
  unfold addLayer, setActiveLayer. unfold_M. cbn.
  match goal with
  | |- context [saveHistoryState ?i ?s'] =>
      destruct (saveHistoryState_stack s' i) as [Hl Ha]
  end.
  unfold exec in *. rewrite Hl, Ha. destruct s; cbn.
  rewrite fmap_app. auto.
Qed.

Lemma toggleLayerVisibility_stack i s :
  id <$> layers (exec (toggleLayerVisibility i) s) = id <$> layers s
  ∧ activeLayerId (exec (toggleLayerVisibility i) s) = activeLayerId s.
Proof.
  unfold toggleLayerVisibility. unfold_M.
  destruct (findLayer i (layers s)) as [[idx layer]|] eqn:Hfind; [|auto].
  apply list_find_Some in Hfind as (Hidx & _ & _).
  destruct s as [t c ls act n h st mx al]; cbn in *. split; [|reflexivity].
  rewrite list_fmap_insert. apply list_insert_id.
  rewrite list_lookup_fmap, Hidx. reflexivity.
Qed.

Lemma id_in_delete (ls : list Layer) idx layer i0 :
  ls !! idx = Some layer → id layer ≠ i0 →
  i0 ∈ id <$> ls → i0 ∈ id <$> delete idx ls.
Proof.
  intros Hidx Hne Hin.
  apply list_elem_of_fmap in Hin as (l0 & -> & Hl0).
  apply list_elem_of_lookup in Hl0 as (j & Hj).
  apply list_elem_of_fmap. exists l0. split; [done|].
  apply list_elem_of_lookup.
  destruct (decide (j < idx)%nat) as [Hlt|Hge].
  - exists j. rewrite list_lookup_delete_lt by done. exact Hj.
  - assert (j ≠ idx) by (intros ->; congruence).
    exists (j - 1)%nat. rewrite list_lookup_delete_ge by lia.
    replace (S (j - 1)) with j by lia. exact Hj.
Qed.

Lemma deleteLayer_active_valid i s :
  active_valid s → active_valid (exec (deleteLayer i) s).
Proof.
  intros Hvalid. unfold deleteLayer. unfold_M.
  destruct (Z.leb_spec (Z.of_nat (length (layers s))) 1) as [Hle|Hgt];
    [exact Hvalid|].
  destruct (findLayer i (layers s)) as [[idx layer]|] eqn:Hfind;
    [|exact Hvalid].
  apply list_find_Some in Hfind as (Hidx & Hid & _).
  pose proof (lookup_lt_Some _ _ _ Hidx) as Hlt.
  assert (length (delete idx (layers s)) = (length (layers s) - 1)%nat) as Hlen
    by (apply length_delete; eauto).
  destruct s as [t c ls act n h st mx al]; cbn in *.
  destruct (decide (act = Some i)) as [->|Hother]; cbn.
  - unfold at_index. replace (Z.max 0 (Z.of_nat idx - 1) <? 0) with false by lia.
    destruct (lookup_lt_is_Some_2 (delete idx ls)
                (Z.to_nat (Z.max 0 (Z.of_nat idx - 1)))) as [l Hl]; [lia|].
    rewrite Hl. cbn. intros _. exists (id l). split; [done|].
    apply list_elem_of_fmap. exists l. split; [done|].
    apply list_elem_of_lookup. eauto.
  - intros _. destruct Hvalid as (i0 & Hact & Hin).
    { cbn. intros ->. cbn in Hgt. lia. }
    cbn in *. exists i0. split; [done|].
    apply (id_in_delete ls idx layer i0 Hidx); [congruence|done].
Qed.

Lemma forEach_modify {A} (g : A → State → State) (a : list A) s :
  forEach (λ x, modify (g x)) a s = (Normal tt, foldl (λ s x, g x s) s a).
Proof.
  revert s. induction a as [|x a IH]; intros s; [reflexivity|].
  cbn [forEach foldl]. unfold mbind, M_bind, bind. unfold modify at 1.
  apply IH.
Qed.

Lemma foldl_push_layers (f : LayerData → Layer) lds s :
  foldl (λ s lData, set_layers (layers s ++ [f lData]) s) s lds
  = set_layers (layers s ++ (f <$> lds)) s.
Proof.
  revert s. induction lds as [|lData lds IH]; intros s; cbn.
  - rewrite app_nil_r. destruct s; reflexivity.
  - rewrite IH. destruct s; cbn. rewrite <- app_assoc. reflexivity.
Qed.

Lemma restoreProject_layers cfg project lds s :
  p_layers project = Some lds →
  restoreProject cfg project s
  = restore_onloads (length lds) 0 lds 0
      (set_layers (blankLayer cfg <$> lds)
         (set_nextLayerId
            (match p_nextLayerId project with
             | Some n => if n =? 0 then 1 else n
             | None => 1
             end) s)).
Proof.
  intros Hl. unfold restoreProject. rewrite Hl.
  unfold mbind, M_bind, bind. unfold modify at 1 2.
  rewrite (forEach_modify (λ lData s, set_layers (layers s ++ [blankLayer cfg lData]) s)).
  rewrite foldl_push_layers. destruct s; reflexivity.
Qed.

Lemma restoreProject_no_layers cfg project s :
  p_layers project = None →
  restoreProject cfg project s
  = (Throw TypeError,
     set_nextLayerId
       (match p_nextLayerId project with
        | Some n => if n =? 0 then 1 else n
        | None => 1
        end) (set_layers [] s)).
Proof.
  intros Hl. unfold restoreProject. rewrite Hl. reflexivity.
Qed.

Lemma alter_canvas_ids (f : Layer → Canvas) k (ls : list Layer) :
  id <$> alter (λ l, set_canvas (f l) l) k ls = id <$> ls.
Proof.
  rewrite (list_fmap_alter id _ (λ i, i)).
  - apply list_alter_id. done.
  - apply Forall_forall. intros l _. reflexivity.
Qed.

Lemma restore_onloads_decoded total k lData lds c s img :
  decode (ld_data lData) = Some img →
  restore_onloads total k (lData :: lds) c s
  = restore_onloads total (S k) lds (S c) (onload_state total k img c s).
Proof.
  intros Hdec. cbn [restore_onloads]. rewrite Hdec.
  unfold restore_onload, onload_state, setActiveLayer. unfold_M.
  destruct (S c =? total)%nat; [|reflexivity].
  destruct (last _); reflexivity.
Qed.

Lemma onload_state_stack total k img c s :
  id <$> layers (onload_state total k img c s) = id <$> layers s
  ∧ history (onload_state total k img c s) = history s
  ∧ historyStep (onload_state total k img c s) = historyStep s
  ∧ maxHistory (onload_state total k img c s) = maxHistory s
  ∧ alerts (onload_state total k img c s) = alerts s
  ∧ activeLayerId (onload_state total k img c s)
    = if (S c =? total)%nat
      then match last (id <$> layers s) with
           | Some i => Some i
           | None => activeLayerId s
           end
      else activeLayerId s.
Proof.
  unfold onload_state.
  assert (∀ ls, id <$> alter (λ l, set_canvas (drawImage img (canvas l)) l) k ls
                = id <$> ls) as Hids by (intros; apply alter_canvas_ids).
  destruct (S c =? total)%nat;
    destruct s as [t col ls act n h st mx al]; cbn; [|rewrite Hids; auto 10].
  rewrite <- (Hids ls), fmap_last.
  destruct (last _); cbn; rewrite ?Hids; auto 10.
Qed.

(** The image handlers of a restore never touch the log, the ids or the
    order of the layers; when every image decodes, the last handler makes
    the top layer active. *)
Lemma restore_onloads_stack total lds k c s :
  id <$> layers (exec (restore_onloads total k lds c) s) = id <$> layers s
  ∧ completion (restore_onloads total k lds c) s = Normal tt
  ∧ history (exec (restore_onloads total k lds c) s) = history s
  ∧ historyStep (exec (restore_onloads total k lds c) s) = historyStep s
  ∧ maxHistory (exec (restore_onloads total k lds c) s) = maxHistory s
  ∧ alerts (exec (restore_onloads total k lds c) s) = alerts s
  ∧ (forallb decodes lds = true → (c + length lds = total)%nat → lds ≠ [] →
     activeLayerId (exec (restore_onloads total k lds c) s)
     = match last (id <$> layers s) with
       | Some i => Some i
       | None => activeLayerId s
       end).
Proof.
  revert k c s. induction lds as [|lData lds IH]; intros k c s.
  { cbn. repeat split; try done. }
  unfold exec, completion in *.
  destruct (decode (ld_data lData)) as [img|] eqn:Hdec.
  - rewrite (restore_onloads_decoded _ _ _ _ _ _ _ Hdec).
    destruct (IH (S k) (S c) (onload_state total k img c s))
      as (H1 & H2 & H3 & H4 & H5 & H6 & H7).
    destruct (onload_state_stack total k img c s)
      as (G1 & G3 & G4 & G5 & G6 & G7).
    rewrite H1, H2, H3, H4, H5, H6, G1, G3, G4, G5, G6.
    repeat split; try done.
    intros Hall Hlen _. cbn in Hall, Hlen.
    unfold decodes in Hall at 1. rewrite Hdec in Hall. cbn in Hall.
    destruct lds as [|lData' lds].
    + cbn. rewrite G7.
      replace (S c =? total)%nat with true by (symmetry; apply Nat.eqb_eq; cbn in Hlen; lia).
      reflexivity.
    + rewrite H7; [| exact Hall | cbn in *; lia | done].
      rewrite G1, G7.
      replace (S c =? total)%nat with false
        by (symmetry; apply Nat.eqb_neq; cbn in Hlen; lia).
      reflexivity.
  - cbn [restore_onloads]. rewrite Hdec.
    destruct (IH (S k) c s) as (H1 & H2 & H3 & H4 & H5 & H6 & H7).
    repeat split; try done.
    intros Hall. cbn in Hall. unfold decodes in Hall at 1.
    rewrite Hdec in Hall. discriminate.
Qed.

Lemma restoreProject_active_valid cfg project s :
  offered s (RestoreProject project) = true →
  active_valid (exec (restoreProject cfg project) s).
Proof.
  cbn. unfold exec.
  destruct (p_layers project) as [lds|] eqn:Hl.
  - intros Hall. rewrite (restoreProject_layers cfg project lds s Hl).
    match goal with
    | |- active_valid (restore_onloads ?t ?k ?l ?c ?s0).2 =>
        destruct (restore_onloads_stack t l k c s0)
          as (Hids & _ & _ & _ & _ & _ & Hact)
    end.
    unfold exec in *. intros Hne.
    destruct lds as [|lData lds].
    { exfalso. apply Hne. apply fmap_nil_inv with (f := id).
      rewrite Hids. destruct s; reflexivity. }
    specialize (Hact Hall eq_refl ltac:(done)).
    rewrite Hact, Hids.
    destruct (last (id <$> layers _)) as [i|] eqn:Hlast.
    + exists i. split; [done|].
      apply last_Some in Hlast as [l' ->]. apply elem_of_app. right.
      apply list_elem_of_here.
    + exfalso. apply last_None in Hlast. destruct s; cbn in Hlast. discriminate.
  - intros _. rewrite (restoreProject_no_layers cfg project s Hl).
    intros Hne. exfalso. apply Hne. destruct s; reflexivity.
Qed.

Lemma run_active_valid cfg op s :
  active_valid s → offered s op = true → active_valid (exec (run cfg op) s).
Proof.
  intros Hvalid Hoff. destruct op as [name|i|i|i|project]; cbn [run].
  - destruct (addLayer_stack cfg name s) as [Hids Hact].
    intros _. exists (nextLayerId s). split; [done|].
    rewrite Hids. apply elem_of_app. right. apply list_elem_of_here.
  - apply deleteLayer_active_valid. exact Hvalid.
  - cbn in Hoff. apply bool_decide_eq_true in Hoff.
    intros _. exists i. destruct s; cbn in *. auto.
  - destruct (toggleLayerVisibility_stack i s) as [Hids Hact].
    intros Hne. unfold active_valid in Hvalid. rewrite Hact, Hids.
    apply Hvalid. intros Hnil. apply Hne.
    apply fmap_nil_inv with (f := id). rewrite Hids, Hnil. reflexivity.
  - apply restoreProject_active_valid. exact Hoff.
Qed.

Lemma restoreProject_call_returns cfg project s :
  restoreProject_call cfg project s
  = match p_layers project with
    | Some lds =>
        (Normal lds,
         set_layers (blankLayer cfg <$> lds)
                    (set_nextLayerId (restoredCounter project) s))
    | None =>
        (Throw TypeError,
         set_nextLayerId (restoredCounter project) (set_layers [] s))
    end.
Proof.
  unfold restoreProject_call. destruct (p_layers project) as [lds|]; [|reflexivity].
  unfold mbind, M_bind, bind. unfold modify at 1 2.
  rewrite (forEach_modify (λ lData s, set_layers (layers s ++ [blankLayer cfg lData]) s)).
  rewrite foldl_push_layers. destruct s; reflexivity.
Qed.

(** The restore with its loads completed is the call followed by the
    handlers. *)
Lemma restoreProject_call_then_onloads cfg project lds s :
  p_layers project = Some lds →
  restoreProject cfg project s
  = restore_onloads (length lds) 0 lds 0
      (exec (restoreProject_call cfg project) s).
Proof.
  intros Hl. rewrite (restoreProject_layers cfg project lds s Hl).
  unfold exec. rewrite restoreProject_call_returns, Hl. reflexivity.
Qed.






(** ** Loading a project *)

Lemma restoreProject_history cfg project s :
  history (exec (restoreProject cfg project) s) = history s
  ∧ historyStep (exec (restoreProject cfg project) s) = historyStep s
  ∧ maxHistory (exec (restoreProject cfg project) s) = maxHistory s.
Proof.
  unfold exec. destruct (p_layers project) as [lds|] eqn:Hl.
  - rewrite (restoreProject_layers cfg project lds s Hl).
    match goal with
    | |- context [restore_onloads ?t ?k ?l ?c ?s0] =>
        destruct (restore_onloads_stack t l k c s0)
          as (_ & _ & Hh & Hs & Hm & _)
    end.
    unfold exec in *. rewrite Hh, Hs, Hm. destruct s; auto.
  - rewrite (restoreProject_no_layers cfg project s Hl). destruct s; auto.
Qed.

Lemma loadProject_history cfg file s :
  history (exec (loadProject cfg file) s) = history s
  ∧ historyStep (exec (loadProject cfg file) s) = historyStep s
  ∧ maxHistory (exec (loadProject cfg file) s) = maxHistory s.
Proof.
  destruct file as [[|project]|]; [destruct s; cbn; auto | | auto].
  destruct (restoreProject_history cfg project s) as (Hh & Hs & Hm).
  unfold loadProject, JSON_parse, alert. unfold_M.
  destruct (restoreProject cfg project s) as [[v|e] s']; cbn in *; [auto|].
  destruct s'; cbn in *; auto.
Qed.

(** C1 (as amended). When the text of the chosen file does not parse, the
    load is reported and the session is otherwise exactly as before; with no
    file chosen nothing happens at all; and no load, successful or not,
    touches the history log, its cursor or its bound. *)
Theorem loadProject_parse_failure_keeps_state (cfg : Config) (s : State) :
  loadProject cfg (Some Malformed) s
    = (Normal tt, set_alerts (alerts s ++ ["Failed to load project file."]) s)
  ∧ loadProject cfg None s = (Normal tt, s)
  ∧ ∀ file,
      history (exec (loadProject cfg file) s) = history s
      ∧ historyStep (exec (loadProject cfg file) s) = historyStep s
      ∧ maxHistory (exec (loadProject cfg file) s) = maxHistory s.
Proof.
  split; [reflexivity|]. split; [reflexivity|].
  intros file. apply loadProject_history.
Qed.

(** C1 as stated fails once the text has parsed. A record without a [layers]
    array makes the load fail, and is reported, after the layer stack has
    been emptied; an image that does not decode leaves the old stack replaced
    by the new, blank layer. *)
Lemma loadProject_not_all_or_nothing :
  layers (exec (init cfg2x2) state) ≠ []
  ∧ alerts (exec (loadProject cfg2x2 (Some (JSONText no_layers_project)))
                 (exec (init cfg2x2) state))
    = ["Failed to load project file."]
  ∧ layers (exec (loadProject cfg2x2 (Some (JSONText no_layers_project)))
                 (exec (init cfg2x2) state))
    = []
  ∧ layers (exec (loadProject cfg2x2 (Some (JSONText corrupt_project)))
                 (exec (init cfg2x2) state))
    = [ {| id := 2; canvas := [transparent; transparent; transparent; transparent];
           visible := true; name := "Layer 2" |} ]
  ∧ layers (exec (loadProject cfg2x2 (Some (JSONText corrupt_project)))
                 (exec (init cfg2x2) state))
    ≠ layers (exec (init cfg2x2) state).
Proof.
  split; [vm_compute; discriminate|].
  split; [vm_compute; reflexivity|].
  split; [vm_compute; reflexivity|].
  split; [vm_compute; reflexivity|].
  vm_compute. discriminate.
Qed.

(** * Further properties *)

(** ** The cursor of the log *)

Lemma trimmed_wf s :
  history_wf s →
  trimmed s = take (Z.to_nat (historyStep s + 1)) (history s)
  ∧ Z.of_nat (length (trimmed s)) = historyStep s + 1.
Proof.
  intros [Hlo Hhi]. unfold trimmed, slice0.
  destruct (Z.ltb_spec (historyStep s) (Z.of_nat (length (history s)) - 1)).
  - replace (historyStep s + 1 <? 0) with false by lia.
    replace (Z.min (historyStep s + 1) (Z.of_nat (length (history s))))
      with (historyStep s + 1) by lia.
    split; [reflexivity|]. rewrite length_take. lia.
  - assert (Z.to_nat (historyStep s + 1) = length (history s)) as -> by lia.
    rewrite firstn_all. split; [reflexivity|lia].
Qed.

Lemma saveHistoryState_cursor s i :
  history_wf s →
  history_wf (exec (saveHistoryState i) s)
  ∧ (is_Some (findLayer i (layers s)) →
     historyStep (exec (saveHistoryState i) s)
     = Z.of_nat (length (history (exec (saveHistoryState i) s))) - 1).
Proof.
  intros Hwf. destruct (trimmed_wf s Hwf) as [_ Hlen]. unfold exec.
  destruct (findLayer i (layers s)) as [[idx layer]|] eqn:Hfind.
  - rewrite (saveHistoryState_found _ _ _ _ Hfind). cbn zeta.
    destruct (maxHistory s <? _); unfold history_wf, shift; destruct s; cbn in *;
      rewrite ?length_drop, length_app; cbn; split; try intros _; lia.
  - rewrite (saveHistoryState_missing _ _ Hfind). split; [exact Hwf|].
    intros [? ?]; discriminate.
Qed.

Lemma undo_log s :
  history_wf s →
  undo s = (Normal tt, exec undo s)
  ∧ history (exec undo s) = history s
  ∧ historyStep (exec undo s)
    = (if 0 <? historyStep s then historyStep s - 1 else historyStep s)
  ∧ maxHistory (exec undo s) = maxHistory s.
Proof.
  intros [Hlo Hhi]. unfold exec.
  destruct (Z.ltb_spec 0 (historyStep s)) as [Hpos|Hle].
  - destruct (lookup_lt_is_Some_2 (history s) (Z.to_nat (historyStep s)))
      as [a Ha]; [lia|].
    assert (at_index (history s) (historyStep s) = Some a) as Hat.
    { unfold at_index. replace (historyStep s <? 0) with false by lia. exact Ha. }
    rewrite (undo_step s a Hpos Hat). cbn zeta.
    destruct (findPrevData_normal (history s) a (Z.to_nat (historyStep s - 1)))
      as [prevData ->]; [lia|].
    destruct (findLayer _ _) as [[idx layer]|]; [|destruct s; cbn; auto].
    destruct prevData as [d|]; [|destruct s; cbn; auto].
    destruct (decode d); destruct s; cbn; auto.
  - rewrite (undo_bottom s Hle). auto.
Qed.

Ltac same_log_by_cases :=
  unfold same_log, exec; unfold_M;
  repeat match goal with
         | |- context [match ?x with _ => _ end] => destruct x
         end;
  match goal with s : State |- _ => destruct s end; cbn; auto.

Lemma deleteLayer_log i s : same_log s (exec (deleteLayer i) s).
Proof. unfold deleteLayer, setActiveLayer. same_log_by_cases. Qed.

Lemma toggleLayerVisibility_log i s : same_log s (exec (toggleLayerVisibility i) s).
Proof. unfold toggleLayerVisibility. same_log_by_cases. Qed.

Lemma pickColorGlobal_log cfg x y s : same_log s (exec (pickColorGlobal cfg x y) s).
Proof. unfold pickColorGlobal, switchToTool. same_log_by_cases. Qed.

Lemma loadProject_log cfg file s : same_log s (exec (loadProject cfg file) s).
Proof. apply loadProject_history. Qed.

Lemma addLayer_as_save cfg name s :
  ∃ s0, same_log s s0 ∧ layers s0 ≠ []
        ∧ is_Some (findLayer (nextLayerId s) (layers s0))
        ∧ exec (addLayer cfg name) s = exec (saveHistoryState (nextLayerId s)) s0.
Proof.
  exists (set_activeLayerId (Some (nextLayerId s))
            (set_layers
               (layers s ++
                  [ {| id := nextLayerId s;
                       canvas := if Z.of_nat (length (layers s)) =? 0
                                 then fillRect (bgColor cfg) (createCanvas cfg)
                                 else createCanvas cfg;
                       visible := true; name := name |} ])
               (set_nextLayerId (js_succ (nextLayerId s)) s))).
  split; [|split; [|split]].
  - destruct s; unfold same_log; cbn. auto.
  - destruct s as [t c ls act n h st mx al]; cbn. destruct ls; discriminate.
  - destruct s as [t c ls act n h st mx al]; cbn. unfold findLayer.
    match goal with |- is_Some ?x => destruct x eqn:Hf end; [eauto|].
    apply list_find_None in Hf. rewrite Forall_app in Hf. destruct Hf as [_ Hf].
    rewrite Forall_singleton in Hf. cbn in Hf. done.
  - unfold addLayer, setActiveLayer. unfold_M. reflexivity.
Qed.

Lemma clearCurrentLayer_as_save s :
  exec clearCurrentLayer s = s
  ∨ ∃ a idx layer,
      activeLayerId s = Some a ∧ findLayer a (layers s) = Some (idx, layer)
      ∧ exec clearCurrentLayer s
        = exec (saveHistoryState a)
            (set_layers
               (<[idx := set_canvas (clearRect (canvas layer)) layer]> (layers s))
               s).
Proof.
  unfold clearCurrentLayer. unfold_M.
  destruct (activeLayerId s) as [a|]; [|auto].
  destruct (findLayer a (layers s)) as [[idx layer]|] eqn:Hf; [|auto].
  right. exists a, idx, layer. auto.
Qed.

Lemma same_log_wf s s' : same_log s s' → history_wf s → history_wf s'.
Proof. intros (Hh & Hs & _). unfold history_wf. rewrite Hh, Hs. done. Qed.

Lemma handle_history_wf cfg ev s :
  history_wf s → history_wf (exec (handle cfg ev) s).
Proof.
  intros Hwf. destruct ev as [|i|i|i| | | |file|x y|t|i]; cbn [handle].
  - change (history_wf (exec (addLayer cfg ("Layer " +:+ num (Some (nextLayerId s)))) s)).
    destruct (addLayer_as_save cfg ("Layer " +:+ num (Some (nextLayerId s))) s)
      as (s0 & Hlog & _ & _ & ->).
    apply saveHistoryState_cursor. exact (same_log_wf _ _ Hlog Hwf).
  - destruct s; exact Hwf.
  - exact (same_log_wf _ _ (toggleLayerVisibility_log i s) Hwf).
  - exact (same_log_wf _ _ (deleteLayer_log i s) Hwf).
  - destruct (undo_log s Hwf) as (_ & Hh & Hs & _). unfold history_wf in *.
    rewrite Hh, Hs. destruct (Z.ltb_spec 0 (historyStep s)); lia.
  - destruct (clearCurrentLayer_as_save s) as [->|(a & idx & layer & _ & _ & ->)];
      [done|].
    apply saveHistoryState_cursor. destruct s; exact Hwf.
  - destruct s; exact Hwf.
  - exact (same_log_wf _ _ (loadProject_log cfg file s) Hwf).
  - exact (same_log_wf _ _ (pickColorGlobal_log cfg x y s) Hwf).
  - destruct s; exact Hwf.
  - apply saveHistoryState_cursor. exact Hwf.
Qed.

Lemma foldl_invariant {A B} (P : A → Prop) (f : A → B → A) l a :
  (∀ a b, P a → P (f a b)) → P a → P (foldl f a l).
Proof.
  intros Hstep. revert a. induction l as [|b l IH]; intros a Ha; cbn; auto.
Qed.

(** X1. Whatever the page does after [init] (adding, selecting, hiding and
    deleting layers, clearing, undoing, generating, picking, ending strokes,
    loading any file), the cursor of the log is [-1] or the index of an
    entry, and the next [undo] completes without an exception. *)
Theorem undo_never_throws (cfg : Config) (evs : list Event) :
  history_wf (session cfg evs)
  ∧ completion undo (session cfg evs) = Normal tt.
Proof.
  assert (history_wf (session cfg evs)) as Hwf.
  { unfold session. apply foldl_invariant.
    - intros s ev. apply handle_history_wf.
    - unfold init.
      destruct (addLayer_as_save cfg "Background" state) as (s0 & Hlog & _ & _ & ->).
      apply saveHistoryState_cursor. apply (same_log_wf state); [exact Hlog|].
      unfold history_wf. cbn. lia. }
  split; [exact Hwf|].
  destruct (undo_log _ Hwf) as (Hn & _). unfold completion. rewrite Hn. reflexivity.
Qed.

Lemma undo_history s :
  history (exec undo s) = history s ∧ maxHistory (exec undo s) = maxHistory s.
Proof.
  unfold exec, undo, undo_onload. unfold_M.
  destruct s as [t c ls act n h st mx al]; cbn.
  repeat match goal with
         | |- context [match ?x with _ => _ end] => destruct x; cbn
         end; auto.
Qed.

Lemma handle_capacity cfg ev s :
  Z.of_nat (length (history s)) ≤ maxHistory s →
  Z.of_nat (length (history (exec (handle cfg ev) s))) ≤ maxHistory s
  ∧ maxHistory (exec (handle cfg ev) s) = maxHistory s.
Proof.
  intros Hb.
  assert (∀ s', same_log s s' →
            Z.of_nat (length (history s')) ≤ maxHistory s
            ∧ maxHistory s' = maxHistory s) as Hsame.
  { intros s' (Hh & _ & Hm). rewrite Hh, Hm. auto. }
  destruct ev as [|i|i|i| | | |file|x y|t|i]; cbn [handle].
  - change (Z.of_nat (length (history
              (exec (addLayer cfg ("Layer " +:+ num (Some (nextLayerId s)))) s)))
            ≤ maxHistory s
            ∧ maxHistory
                (exec (addLayer cfg ("Layer " +:+ num (Some (nextLayerId s)))) s)
              = maxHistory s).
    destruct (addLayer_as_save cfg ("Layer " +:+ num (Some (nextLayerId s))) s)
      as (s0 & (Hh & Hs & Hm) & _ & _ & ->).
    rewrite <- Hm. apply saveHistoryState_bound. rewrite Hh, Hm. exact Hb.
  - destruct s; cbn in *; auto.
  - apply Hsame, toggleLayerVisibility_log.
  - apply Hsame, deleteLayer_log.
  - destruct (undo_history s) as [Hh Hm]. rewrite Hh, Hm. auto.
  - destruct (clearCurrentLayer_as_save s) as [->|(a & idx & layer & _ & _ & ->)];
      [auto|].
    match goal with
    | |- context [exec (saveHistoryState a) ?s0] =>
        destruct (saveHistoryState_bound s0 a) as [H1 H2];
          [destruct s; exact Hb|]
    end.
    destruct s; cbn in *; auto.
  - destruct s; cbn in *; auto.
  - apply Hsame, loadProject_log.
  - apply Hsame, pickColorGlobal_log.
  - destruct s; cbn in *; auto.
  - apply saveHistoryState_bound. exact Hb.
Qed.

(** X2. In every session, whatever the page does after [init], the log
    holds at most twenty entries. *)
Theorem session_history_capacity (cfg : Config) (evs : list Event) :
  Z.of_nat (length (history (session cfg evs))) ≤ 20
  ∧ maxHistory (session cfg evs) = 20.
Proof.
  unfold session.
  apply (foldl_invariant
           (λ s, Z.of_nat (length (history s)) ≤ 20 ∧ maxHistory s = 20)).
  - intros s ev [Hb Hm].
    destruct (handle_capacity cfg ev s) as [H1 H2]; [lia|]. lia.
  - vm_compute. split; [discriminate|reflexivity].
Qed.

(** X3. History is linear. After an [undo] that moved the cursor, the next
    recording discards the undone entries: the log becomes the entries up to
    the new cursor followed by the new snapshot, and the cursor is on that
    snapshot. *)
Theorem record_after_undo_discards_undone
    (s : State) (i : Z) (idx : nat) (layer : Layer) :
  history_wf s → 0 < historyStep s →
  Z.of_nat (length (history s)) ≤ maxHistory s →
  findLayer i (layers (exec undo s)) = Some (idx, layer) →
  history (exec (saveHistoryState i) (exec undo s))
    = take (Z.to_nat (historyStep s)) (history s) ++ [snapshot i layer]
  ∧ historyStep (exec (saveHistoryState i) (exec undo s)) = historyStep s.
Proof.
  intros Hwf Hpos Hcap Hfind.
  destruct (undo_log s Hwf) as (_ & Hh & Hs & Hm).
  replace (0 <? historyStep s) with true in Hs by lia.
  assert (history_wf (exec undo s)) as Hwf1.
  { unfold history_wf in *. rewrite Hh, Hs. lia. }
  destruct (trimmed_wf _ Hwf1) as [Htrim Hlen].
  unfold exec at 1 3. rewrite (saveHistoryState_found _ _ _ _ Hfind). cbn zeta.
  rewrite Hm.
  replace (maxHistory s <? _) with false.
  - cbn. rewrite Htrim, Hh, Hs.
    replace (historyStep s - 1 + 1) with (historyStep s) by lia.
    split; [reflexivity|lia].
  - symmetry. apply Z.ltb_ge. rewrite length_app. cbn.
    destruct Hwf. lia.
Qed.

Lemma record_after_undo_discards_undone_witness :
  history (exec (saveHistoryState 1) (exec undo wiped_background))
  = take 1 (history wiped_background)
    ++ [snapshot 1 {| id := 1; canvas := [white; white; white];
                      visible := true; name := "Background" |}].
Proof.
  apply (record_after_undo_discards_undone wiped_background 1 0%nat
           {| id := 1; canvas := [white; white; white];
              visible := true; name := "Background" |}).
  - vm_compute. split; [discriminate|reflexivity].
  - vm_compute. reflexivity.
  - vm_compute. discriminate.
  - reflexivity.
Defined.

(** ** Undo against the operations that record *)

Lemma findLayer_insert i (ls : list Layer) idx l l' :
  findLayer i ls = Some (idx, l) → id l' = id l →
  findLayer i (<[idx := l']> ls) = Some (idx, l').
Proof.
  intros Hfind Hid. apply list_find_Some in Hfind as (Hidx & Hi & Hfirst).
  apply list_find_Some. split; [|split].
  - apply list_lookup_insert_eq. apply lookup_lt_Some in Hidx. exact Hidx.
  - congruence.
  - intros j y Hj Hlt. rewrite list_lookup_insert_ne in Hj by lia.
    exact (Hfirst j y Hj Hlt).
Qed.

Lemma clearCurrentLayer_found s a idx layer :
  activeLayerId s = Some a → findLayer a (layers s) = Some (idx, layer) →
  exec clearCurrentLayer s
  = exec (saveHistoryState a)
      (set_layers
         (<[idx := set_canvas (clearRect (canvas layer)) layer]> (layers s)) s).
Proof.
  intros Ha Hf. unfold clearCurrentLayer. unfold_M. rewrite Ha, Hf. reflexivity.
Qed.

Lemma set_canvas_back c l : set_canvas (canvas l) (set_canvas c l) = l.
Proof. destruct l; reflexivity. Qed.

(** X4. Clearing the active layer and undoing gives the layers back exactly,
    when the layer's surface was the one of its latest snapshot at or below
    the cursor and the recording did not evict. *)
Theorem undo_reverts_clearCurrentLayer
    (s : State) (a : Z) (idx : nat) (layer : Layer) (i : nat)
    (prev : HistoryEntry) :
  history_wf s →
  activeLayerId s = Some a →
  findLayer a (layers s) = Some (idx, layer) →
  Z.of_nat i ≤ historyStep s →
  history s !! i = Some prev →
  layerId prev = a →
  dataURL prev = toDataURL (canvas layer) →
  (∀ (j : nat) e, (i < j)%nat → Z.of_nat j ≤ historyStep s →
                  history s !! j = Some e → layerId e ≠ a) →
  historyStep s + 2 ≤ maxHistory s →
  layers (exec undo (exec clearCurrentLayer s)) = layers s
  ∧ historyStep (exec undo (exec clearCurrentLayer s)) = historyStep s.
Proof.
  intros Hwf Hact Hfind Hi Hprev Hid Hdata Hnearest Hroom.
  rewrite (clearCurrentLayer_found s a idx layer Hact Hfind).
  set (cleared := set_canvas (clearRect (canvas layer)) layer).
  set (s0 := set_layers (<[idx := cleared]> (layers s)) s).
  assert (history s0 = history s ∧ historyStep s0 = historyStep s
          ∧ maxHistory s0 = maxHistory s
          ∧ layers s0 = <[idx := cleared]> (layers s)) as (Hh0 & Hs0 & Hm0 & Hl0)
    by (subst s0; destruct s; cbn; auto).
  assert (history_wf s0) as Hwf0 by (unfold history_wf; rewrite Hh0, Hs0; exact Hwf).
  assert (findLayer a (layers s0) = Some (idx, cleared)) as Hfind0.
  { rewrite Hl0. apply (findLayer_insert a _ idx layer); [exact Hfind|reflexivity]. }
  destruct (trimmed_wf s0 Hwf0) as [Htrim Hlen].
  unfold exec at 2 4. rewrite (saveHistoryState_found _ _ _ _ Hfind0). cbn zeta.
  replace (maxHistory s0 <? _) with false
    by (symmetry; apply Z.ltb_ge; rewrite length_app; cbn; lia).
  cbn [snd].
  set (h := trimmed s0 ++ [snapshot a cleared]).
  set (s1 := set_historyStep (historyStep s0 + 1) (set_history h s0)).
  assert (history s1 = h ∧ historyStep s1 = historyStep s + 1
          ∧ layers s1 = <[idx := cleared]> (layers s)) as (Hh1 & Hs1 & Hl1)
    by (subst s1; destruct s0; cbn in *; subst; auto).
  assert (length (trimmed s0) = Z.to_nat (historyStep s + 1)) as Hlen' by lia.
  assert (at_index (history s1) (historyStep s1) = Some (snapshot a cleared)) as Hat.
  { unfold at_index. rewrite Hh1, Hs1.
    replace (historyStep s + 1 <? 0) with false by lia.
    subst h. rewrite <- Hlen'. apply list_lookup_middle. reflexivity. }
  assert (∀ j, Z.of_nat j ≤ historyStep s → h !! j = history s !! j) as Hsame.
  { intros j Hj. subst h. rewrite lookup_app_l by lia.
    rewrite Htrim, Hh0, Hs0. apply lookup_take_lt. lia. }
  unfold exec. rewrite (undo_step s1 (snapshot a cleared)); [|lia|exact Hat].
  cbn zeta. rewrite Hh1, Hs1, Hl1.
  rewrite (findPrevData_found h (snapshot a cleared) _ i prev).
  - cbn [snapshot layerId]. rewrite <- Hl0, Hfind0, Hdata. cbn [decode toDataURL].
    rewrite drawImage_clearRect.
    + subst cleared. rewrite set_canvas_back.
      destruct s1; cbn in *. subst. split; [|lia].
      rewrite list_insert_insert_eq. apply list_insert_id.
      apply list_find_Some in Hfind as (Hidx & _). exact Hidx.
    + subst cleared. cbn. unfold clearRect. rewrite !length_fmap. reflexivity.
  - lia.
  - subst h. rewrite length_app. cbn. lia.
  - rewrite Hsame by lia. exact Hprev.
  - exact Hid.
  - intros j e Hj1 Hj2 He. rewrite Hsame in He by lia.
    apply (Hnearest j e); [lia|lia|exact He].
Qed.

Lemma undo_reverts_clearCurrentLayer_witness :
  layers (exec undo (exec clearCurrentLayer (exec (init cfg3x1) state)))
  = layers (exec (init cfg3x1) state).
Proof.
  apply (undo_reverts_clearCurrentLayer (exec (init cfg3x1) state) 1 0%nat
           {| id := 1; canvas := [white; white; white]; visible := true;
              name := "Background" |}
           0%nat
           {| layerId := 1; dataURL := Encoded [white; white; white] |}).
  - vm_compute. split; [discriminate|reflexivity].
  - reflexivity.
  - reflexivity.
  - vm_compute. discriminate.
  - reflexivity.
  - reflexivity.
  - reflexivity.
  - intros j e Hj1 Hj2. change (historyStep (exec (init cfg3x1) state)) with 0 in Hj2.
    lia.
  - vm_compute. discriminate.
Defined.

Lemma trimmed_subset s e : e ∈ trimmed s → e ∈ history s.
Proof.
  unfold trimmed, slice0. destruct (_ <? _ - 1); [|done].
  intros He. apply list_elem_of_lookup in He as [j Hj].
  apply lookup_take_Some in Hj as [Hj _].
  apply list_elem_of_lookup. eauto.
Qed.

(** The log after a recording that found its layer: some entries of the old
    log followed by the new snapshot, the cursor on the snapshot; or the
    cursor at [-1]. *)
Lemma saveHistoryState_shape s i idx layer :
  history_wf s → findLayer i (layers s) = Some (idx, layer) →
  layers (exec (saveHistoryState i) s) = layers s
  ∧ ((∃ older,
        history (exec (saveHistoryState i) s) = older ++ [snapshot i layer]
        ∧ historyStep (exec (saveHistoryState i) s) = Z.of_nat (length older)
        ∧ ∀ e, e ∈ older → e ∈ history s)
     ∨ historyStep (exec (saveHistoryState i) s) = -1).
Proof.
  intros Hwf Hfind. destruct (trimmed_wf s Hwf) as [_ Hlen].
  destruct (saveHistoryState_stack s i) as [Hl _]. split; [exact Hl|].
  assert (∀ h c, history (set_historyStep c (set_history h s)) = h
                 ∧ historyStep (set_historyStep c (set_history h s)) = c) as Hset
    by (intros; destruct s; auto).
  unfold exec. rewrite (saveHistoryState_found _ _ _ _ Hfind). cbn zeta.
  destruct (maxHistory s <? _); cbn [snd];
    match goal with
    | |- context [set_historyStep ?c (set_history ?h s)] =>
        destruct (Hset h c) as [-> ->]
    end.
  - destruct (trimmed s) as [|e0 older] eqn:Ht.
    + right. cbn in Hlen. lia.
    + left. exists older. split; [reflexivity|]. cbn in Hlen.
      split; [lia|]. intros e He. apply trimmed_subset. rewrite Ht.
      apply list_elem_of_further. exact He.
  - left. exists (trimmed s). split; [reflexivity|].
    split; [lia|]. intros e He. apply trimmed_subset. exact He.
Qed.

(** X5. [undo] does not take back the creation of a layer: right after
    [addLayer], with an id the log has not seen, [undo] leaves the stack,
    the new layer included, as it is. *)
Theorem undo_keeps_added_layer (cfg : Config) (name : string) (s : State) :
  history_wf s →
  (∀ e, e ∈ history s → layerId e ≠ nextLayerId s) →
  layers (exec undo (exec (addLayer cfg name) s))
  = layers (exec (addLayer cfg name) s).
Proof.
  intros Hwf Hfresh.
  destruct (addLayer_as_save cfg name s) as (s0 & Hlog & _ & [[idx layer] Hfind] & ->).
  assert (history_wf s0) as Hwf0 by exact (same_log_wf _ _ Hlog Hwf).
  destruct Hlog as (Hh0 & _ & _).
  destruct (saveHistoryState_shape s0 _ idx layer Hwf0 Hfind)
    as (_ & [(older & Hh & Hs & Hsub) | Hbottom]).
  - remember (exec (saveHistoryState (nextLayerId s)) s0) as s1 eqn:Hs1.
    clear Hs1 Hfind.
    destruct (Z.le_gt_cases (historyStep s1) 0) as [Hle|Hpos].
    { unfold exec at 1. rewrite (undo_bottom s1 Hle). reflexivity. }
    assert (at_index (history s1) (historyStep s1)
            = Some (snapshot (nextLayerId s) layer)) as Hat.
    { unfold at_index. rewrite Hh, Hs.
      replace (Z.of_nat (length older) <? 0) with false by lia.
      rewrite Nat2Z.id. apply list_lookup_middle. reflexivity. }
    unfold exec at 1. rewrite (undo_step s1 _ ltac:(lia) Hat). cbn zeta.
    rewrite (findPrevData_none (history s1) (snapshot (nextLayerId s) layer)).
    + destruct (findLayer _ (layers s1)) as [[? ?]|]; destruct s1; reflexivity.
    + rewrite Hh, Hs, length_app. cbn. lia.
    + intros j e Hj He. rewrite Hh, Hs in *.
      rewrite lookup_app_l in He by lia. cbn.
      apply Hfresh. rewrite <- Hh0. apply Hsub.
      apply list_elem_of_lookup. eauto.
  - unfold exec at 1. rewrite undo_bottom; [reflexivity|]. lia.
Qed.

Lemma undo_keeps_added_layer_witness :
  layers (exec undo (exec (addLayer cfg3x1 "Layer 2") (exec (init cfg3x1) state)))
  = layers (exec (addLayer cfg3x1 "Layer 2") (exec (init cfg3x1) state)).
Proof.
  apply (undo_keeps_added_layer cfg3x1 "Layer 2" (exec (init cfg3x1) state)).
  - vm_compute. split; [discriminate|reflexivity].
  - intros e He. change (history (exec (init cfg3x1) state))
      with [ {| layerId := 1; dataURL := Encoded [white; white; white] |} ] in He.
    apply list_elem_of_singleton in He. subst e. cbn. discriminate.
Defined.

(** ** Visibility *)

(** X6. Toggling the visibility of a layer twice gives the session back
    exactly, whether or not a layer has that id. *)
Theorem toggleLayerVisibility_twice (i : Z) (s : State) :
  exec (toggleLayerVisibility i) (exec (toggleLayerVisibility i) s) = s.
Proof.
  unfold exec at 2. unfold toggleLayerVisibility at 2. unfold_M.
  destruct (findLayer i (layers s)) as [[idx layer]|] eqn:Hfind.
  - cbn [snd].
    pose proof (findLayer_insert i (layers s) idx layer
                  (set_visible (negb (visible layer)) layer) Hfind eq_refl) as Hf2.
    unfold toggleLayerVisibility. unfold_M.
    replace (layers (set_layers _ s))
      with (<[idx := set_visible (negb (visible layer)) layer]> (layers s))
      by (destruct s; reflexivity).
    rewrite Hf2. cbn [snd].
    apply list_find_Some in Hfind as (Hidx & _).
    destruct s as [t c ls act n h st mx al]; cbn in *.
    unfold set_layers; cbn. f_equal.
    rewrite list_insert_insert_eq. apply list_insert_id.
    rewrite Hidx. destruct layer as [li lc lv ln]; cbn.
    rewrite negb_involutive. reflexivity.
  - cbn [snd]. unfold toggleLayerVisibility. unfold_M. rewrite Hfind. reflexivity.
Qed.

Lemma foldl_visible {A} (f : A → Layer → A) (a : A) (ls : list Layer) :
  foldl (λ t l, if visible l then f t l else t) a ls
  = foldl f a (filter (λ l, visible l = true) ls).
Proof.
  revert a. induction ls as [|l ls IH]; intros a; [reflexivity|].
  cbn [foldl]. rewrite filter_cons. destruct (visible l) eqn:Hv.
  - rewrite decide_True by reflexivity. cbn. apply IH.
  - rewrite decide_False by discriminate. apply IH.
Qed.

(** X7. Hidden layers do not show: two sessions with the same visible layers,
    in the same order, generate the same program and pick the same colour
    everywhere, whatever their hidden layers hold. *)
Theorem hidden_layers_do_not_show (cfg : Config) (s1 s2 : State) (x y : Z) :
  filter (λ l, visible l = true) (layers s1)
    = filter (λ l, visible l = true) (layers s2) →
  completion (processAllLayers cfg) s1 = completion (processAllLayers cfg) s2
  ∧ color (exec (pickColorGlobal cfg x y) s1)
    = color (exec (pickColorGlobal cfg x y) s2).
Proof.
  intros Hvis. split.
  - unfold processAllLayers, flattenLayers, flattenFrom. unfold_M. cbn.
    rewrite !(foldl_visible (λ tempC l, drawImage (canvas l) tempC)), Hvis.
    reflexivity.
  - unfold pickColorGlobal, switchToTool, pickCanvas. unfold_M. cbn.
    rewrite !(foldl_visible (λ tempC l, drawImage_1x1 cfg (canvas l) x y tempC)),
      Hvis.
    reflexivity.
Qed.

(** With the white background hidden, deleting it changes neither the
    program nor the picked colour. *)
Lemma hidden_layers_do_not_show_witness :
  completion (processAllLayers cfg2x2) background_hidden
  = completion (processAllLayers cfg2x2) (exec (deleteLayer 1) background_hidden).
Proof.
  apply (hidden_layers_do_not_show cfg2x2 background_hidden
           (exec (deleteLayer 1) background_hidden) 0 0).
  vm_compute. reflexivity.
Defined.

Lemma source_over_nothing d : source_over d transparent = d.
Proof.
  destruct d as [r g b a]. unfold source_over, over_channel; cbn.
  change (255 - 0) with 255. rewrite !Z.div_mul by discriminate. reflexivity.
Qed.

Lemma drawImage_blank n dst : drawImage (replicate n transparent) dst = dst.
Proof.
  revert n. induction dst as [|d dst IH]; intros [|n]; cbn; try reflexivity.
  rewrite source_over_nothing, IH. reflexivity.
Qed.

Lemma addLayer_layers cfg name s :
  layers (exec (addLayer cfg name) s)
  = layers s ++
      [ {| id := nextLayerId s;
           canvas := if Z.of_nat (length (layers s)) =? 0
                     then fillRect (bgColor cfg) (createCanvas cfg)
                     else createCanvas cfg;
           visible := true; name := name |} ]
  ∧ nextLayerId (exec (addLayer cfg name) s) = js_succ (nextLayerId s).
Proof.
  unfold addLayer, setActiveLayer. unfold_M. cbn.
  match goal with
  | |- context [saveHistoryState ?i ?s'] =>
      destruct (saveHistoryState_stack s' i) as [Hl _];
      assert (nextLayerId (exec (saveHistoryState i) s') = nextLayerId s') as Hn
  end.
  { unfold exec.
    match goal with
    | |- context [saveHistoryState ?i ?s'] =>
        destruct (findLayer i (layers s')) as [[idx layer]|] eqn:Hfind;
        [ rewrite (saveHistoryState_found _ _ _ _ Hfind); cbn zeta;
          destruct (maxHistory _ <? _); destruct s; reflexivity
        | rewrite (saveHistoryState_missing _ _ Hfind); reflexivity ]
    end. }
  unfold exec in *. rewrite Hl, Hn. destruct s; cbn. auto.
Qed.

(** X8. A layer added on top of a non-empty stack starts fully transparent:
    the flattened canvas, hence the generated program, and the colour picked
    at any point are what they were before. *)
Theorem addLayer_keeps_composite (cfg : Config) (name : string) (s : State)
    (x y : Z) :
  layers s ≠ [] →
  flattenLayers cfg (layers (exec (addLayer cfg name) s))
    = flattenLayers cfg (layers s)
  ∧ completion (processAllLayers cfg) (exec (addLayer cfg name) s)
    = completion (processAllLayers cfg) s
  ∧ pickCanvas cfg x y (layers (exec (addLayer cfg name) s))
    = pickCanvas cfg x y (layers s).
Proof.
  intros Hne. destruct (addLayer_layers cfg name s) as [Hl _].
  replace (Z.of_nat (length (layers s)) =? 0) with false in Hl
    by (destruct (layers s); [done|reflexivity]).
  assert (flattenLayers cfg (layers (exec (addLayer cfg name) s))
          = flattenLayers cfg (layers s)) as Hflat.
  { rewrite Hl. unfold flattenLayers, flattenFrom. rewrite foldl_app. cbn.
    apply drawImage_blank. }
  split; [exact Hflat|]. split.
  - unfold processAllLayers. unfold_M. cbn. rewrite Hflat. reflexivity.
  - rewrite Hl. unfold pickCanvas. rewrite foldl_app. cbn.
    unfold drawImage_1x1 at 1, pixelAt, createCanvas.
    destruct (_ && _); [|reflexivity].
    destruct (replicate _ transparent !! _) as [p|] eqn:Hp; [|reflexivity].
    apply lookup_replicate in Hp as [-> _].
    exact (drawImage_blank 1 _).
Qed.

Lemma addLayer_keeps_composite_witness :
  flattenLayers cfg2x2
    (layers (exec (addLayer cfg2x2 "Layer 2") (exec (init cfg2x2) state)))
  = flattenLayers cfg2x2 (layers (exec (init cfg2x2) state)).
Proof.
  apply (addLayer_keeps_composite cfg2x2 "Layer 2" (exec (init cfg2x2) state) 0 0).
  vm_compute. discriminate.
Defined.

(** ** Layer ids *)

Lemma insert_same_id (ls : list Layer) idx layer layer' :
  ls !! idx = Some layer → id layer' = id layer →
  id <$> <[idx := layer']> ls = id <$> ls.
Proof.
  intros Hidx Hid. rewrite list_fmap_insert. apply list_insert_id.
  rewrite list_lookup_fmap, Hidx, Hid. reflexivity.
Qed.

Lemma undo_stack s :
  id <$> layers (exec undo s) = id <$> layers s
  ∧ nextLayerId (exec undo s) = nextLayerId s
  ∧ activeLayerId (exec undo s) = activeLayerId s.
Proof.
  unfold exec.
  destruct (Z.le_gt_cases (historyStep s) 0) as [Hle|Hpos].
  { rewrite (undo_bottom s Hle). auto. }
  assert (0 < historyStep s) as Hpos' by lia.
  destruct (at_index (history s) (historyStep s)) as [entry|] eqn:Hentry.
  - rewrite (undo_step s entry Hpos' Hentry). cbn zeta.
    destruct (findPrevData _ _ _) as [prevData|e]; [|destruct s; cbn; auto].
    destruct (findLayer (layerId entry) (layers s)) as [[idx layer]|] eqn:Hfind;
      [|destruct s; cbn; auto].
    destruct prevData as [d|]; [|destruct s; cbn; auto].
    destruct (decode d) as [img|]; [|destruct s; cbn; auto].
    apply list_find_Some in Hfind as (Hidx & _).
    destruct s; cbn in *. split; [|auto].
    apply (insert_same_id _ idx layer); [exact Hidx|reflexivity].
  - unfold undo. unfold_M.
    replace (0 <? historyStep s) with true by lia. rewrite Hentry.
    destruct s as [t c ls act n h st mx al]; cbn in *.
    destruct (findPrevData h None (Z.to_nat (st - 1))) as [prevData|e]; auto.
Qed.

Lemma saveHistoryState_ids s i :
  layers (exec (saveHistoryState i) s) = layers s
  ∧ nextLayerId (exec (saveHistoryState i) s) = nextLayerId s.
Proof.
  destruct (saveHistoryState_stack s i) as [Hl _]. split; [exact Hl|].
  unfold exec. destruct (findLayer i (layers s)) as [[idx layer]|] eqn:Hfind.
  - rewrite (saveHistoryState_found _ _ _ _ Hfind). cbn zeta.
    destruct (maxHistory _ <? _); destruct s; reflexivity.
  - rewrite (saveHistoryState_missing _ _ Hfind). reflexivity.
Qed.

Lemma clearCurrentLayer_stack s :
  id <$> layers (exec clearCurrentLayer s) = id <$> layers s
  ∧ nextLayerId (exec clearCurrentLayer s) = nextLayerId s.
Proof.
  destruct (clearCurrentLayer_as_save s) as [->|(a & idx & layer & _ & Hf & ->)];
    [auto|].
  match goal with
  | |- context [exec (saveHistoryState a) ?s0] =>
      destruct (saveHistoryState_ids s0 a) as [-> ->]
  end.
  apply list_find_Some in Hf as (Hidx & _).
  destruct s; cbn in *. split; [|reflexivity].
  apply (insert_same_id _ idx layer); [exact Hidx|reflexivity].
Qed.

(** What [deleteLayer] does to the stack. *)
Lemma deleteLayer_layers i s :
  nextLayerId (exec (deleteLayer i) s) = nextLayerId s
  ∧ layers (exec (deleteLayer i) s)
    = if Z.of_nat (length (layers s)) <=? 1 then layers s
      else match findLayer i (layers s) with
           | Some (idx, _) => delete idx (layers s)
           | None => layers s
           end.
Proof.
  unfold deleteLayer, setActiveLayer. unfold_M.
  destruct (Z.of_nat (length (layers s)) <=? 1); [auto|].
  destruct (findLayer i (layers s)) as [[idx layer]|]; [|auto].
  destruct (decide (activeLayerId s = Some i)); [|destruct s; cbn; auto].
  destruct s as [t c ls act n h st mx al]; cbn.
  destruct (at_index (delete idx ls) _); cbn; auto.
Qed.

Lemma toggleLayerVisibility_next i s :
  nextLayerId (exec (toggleLayerVisibility i) s) = nextLayerId s.
Proof.
  unfold toggleLayerVisibility. unfold_M.
  destruct (findLayer i (layers s)) as [[idx layer]|]; destruct s; reflexivity.
Qed.

Lemma pickColorGlobal_stack cfg x y s :
  layers (exec (pickColorGlobal cfg x y) s) = layers s
  ∧ nextLayerId (exec (pickColorGlobal cfg x y) s) = nextLayerId s.
Proof. unfold pickColorGlobal, switchToTool. unfold_M. destruct s; cbn; auto. Qed.

Lemma onload_state_next total k img c s :
  nextLayerId (onload_state total k img c s) = nextLayerId s.
Proof.
  unfold onload_state. destruct (S c =? total)%nat; [|destruct s; reflexivity].
  destruct (last _); destruct s; reflexivity.
Qed.

Lemma restore_onloads_next total lds k c s :
  nextLayerId (exec (restore_onloads total k lds c) s) = nextLayerId s.
Proof.
  revert k c s. induction lds as [|lData lds IH]; intros k c s; [reflexivity|].
  unfold exec in *.
  destruct (decode (ld_data lData)) as [img|] eqn:Hdec.
  - rewrite (restore_onloads_decoded _ _ _ _ _ _ _ Hdec).
    rewrite IH. apply onload_state_next.
  - cbn [restore_onloads]. rewrite Hdec. apply IH.
Qed.

Lemma restoreProject_stack cfg project s :
  nextLayerId (exec (restoreProject cfg project) s) = restoredCounter project
  ∧ id <$> layers (exec (restoreProject cfg project) s)
    = match p_layers project with
      | Some lds => ld_id <$> lds
      | None => []
      end.
Proof.
  unfold exec, restoredCounter.
  destruct (p_layers project) as [lds|] eqn:Hl.
  - rewrite (restoreProject_layers cfg project lds s Hl).
    match goal with
    | |- context [restore_onloads ?t ?k ?l ?c ?s0] =>
        destruct (restore_onloads_stack t l k c s0) as (Hids & _);
        pose proof (restore_onloads_next t l k c s0) as Hn
    end.
    unfold exec in *. rewrite Hids, Hn. destruct s; cbn.
    split; [reflexivity|]. rewrite <- list_fmap_compose. reflexivity.
  - rewrite (restoreProject_no_layers cfg project s Hl). destruct s; cbn. auto.
Qed.

Lemma loadProject_parsed cfg project s :
  layers (exec (loadProject cfg (Some (JSONText project))) s)
    = layers (exec (restoreProject cfg project) s)
  ∧ nextLayerId (exec (loadProject cfg (Some (JSONText project))) s)
    = nextLayerId (exec (restoreProject cfg project) s)
  ∧ activeLayerId (exec (loadProject cfg (Some (JSONText project))) s)
    = activeLayerId (exec (restoreProject cfg project) s).
Proof.
  unfold loadProject, JSON_parse, alert. unfold_M.
  destruct (restoreProject cfg project s) as [[v|e] s']; cbn; [auto|].
  destruct s'; cbn; auto.
Qed.

Lemma stack_sound_same s s' :
  id <$> layers s' = id <$> layers s → nextLayerId s' = nextLayerId s →
  stack_sound s → stack_sound s'.
Proof.
  intros Hids Hn [Hne [Hnd Hlt]]. unfold stack_sound, ids_fresh.
  rewrite Hids, Hn. split; [|auto].
  intros Hnil. apply Hne. apply fmap_nil_inv with (f := id).
  rewrite <- Hids, Hnil. reflexivity.
Qed.

Lemma js_succ_exact n : exact_counter n → js_succ n = n + 1.
Proof.
  unfold exact_counter, counter_limit, js_succ, toDouble. intros Hn. cbn zeta.
  replace (Z.abs (n + 1) <=? 2 ^ 53) with true; [reflexivity|].
  symmetry. apply Z.leb_le. change (2 ^ 53) with 9007199254740992. lia.
Qed.

Lemma counter_room_same room s s' :
  nextLayerId s' = nextLayerId s → counter_room (room + 1) s → counter_room room s'.
Proof. unfold counter_room. intros ->. lia. Qed.

Lemma handle_stack_sound cfg ev s room total :
  0 ≤ room ≤ total → total + 2 < counter_limit →
  keeps_ids total ev → stack_sound s → counter_room (room + 1) s →
  stack_sound (exec (handle cfg ev) s) ∧ counter_room room (exec (handle cfg ev) s).
Proof.
  intros Hroom Htotal Hev Hs Hc.
  assert (∀ s', id <$> layers s' = id <$> layers s →
                nextLayerId s' = nextLayerId s →
                stack_sound s' ∧ counter_room room s') as Hsame.
  { intros s' Hids Hn. split; [exact (stack_sound_same s s' Hids Hn Hs)|].
    exact (counter_room_same room s s' Hn Hc). }
  destruct ev as [|i|i|i| | | |file|x y|t|i]; cbn [handle].
  - change (stack_sound
              (exec (addLayer cfg ("Layer " +:+ num (Some (nextLayerId s)))) s)
            ∧ counter_room room
              (exec (addLayer cfg ("Layer " +:+ num (Some (nextLayerId s)))) s)).
    destruct (addLayer_layers cfg ("Layer " +:+ num (Some (nextLayerId s))) s)
      as [Hl Hn].
    rewrite js_succ_exact in Hn by (unfold exact_counter, counter_room in *; lia).
    destruct Hs as [Hne [Hnd Hlt]]. unfold stack_sound, ids_fresh, counter_room.
    rewrite Hl, Hn, fmap_app. cbn. split; [split; [|split]|].
    + destruct (layers s); discriminate.
    + apply NoDup_app. split; [exact Hnd|]. split; [|apply NoDup_singleton].
      intros j Hj Hj'. apply list_elem_of_singleton in Hj'. subst j.
      rewrite Forall_forall in Hlt. specialize (Hlt _ Hj). lia.
    + apply Forall_app. split; [|apply Forall_singleton; lia].
      eapply Forall_impl; [exact Hlt|]. cbn. intros; lia.
    + unfold counter_room in Hc. lia.
  - apply Hsame; destruct s; reflexivity.
  - destruct (toggleLayerVisibility_stack i s) as [Hids _].
    exact (Hsame _ Hids (toggleLayerVisibility_next i s)).
  - destruct (deleteLayer_layers i s) as [Hn Hl].
    split; [|exact (counter_room_same room s _ Hn Hc)].
    destruct Hs as [Hne [Hnd Hlt]]. unfold stack_sound, ids_fresh.
    rewrite Hn, Hl.
    destruct (Z.leb_spec (Z.of_nat (length (layers s))) 1) as [Hle|Hgt]; [auto|].
    destruct (findLayer i (layers s)) as [[idx layer]|] eqn:Hfind; [|auto].
    apply list_find_Some in Hfind as (Hidx & _).
    rewrite list_fmap_delete. split; [|split].
    + intros Hnil. apply (f_equal length) in Hnil.
      rewrite length_delete in Hnil by eauto. cbn in Hnil. lia.
    + apply (sublist_NoDup _ _ Hnd), sublist_delete.
    + apply Forall_delete. exact Hlt.
  - destruct (undo_stack s) as (Hids & Hn & _). exact (Hsame _ Hids Hn).
  - destruct (clearCurrentLayer_stack s) as [Hids Hn]. exact (Hsame _ Hids Hn).
  - apply Hsame; destruct s; reflexivity.
  - destruct file as [[|project]|].
    + apply Hsame; destruct s; reflexivity.
    + destruct (loadProject_parsed cfg project s) as (Hl & Hn & _).
      destruct (restoreProject_stack cfg project s) as [Hn' Hids].
      destruct Hev as (lds & n & Hlds & Hne & Hnd & Hnext & Hlt & Hlo & Hhi).
      unfold stack_sound, ids_fresh, counter_room. rewrite Hl, Hn, Hn', Hids, Hlds.
      unfold restoredCounter. rewrite Hnext.
      split; [split; [|split; [exact Hnd|]]|].
      * intros Hnil. apply (f_equal (fmap id)) in Hnil.
        rewrite Hids, Hlds in Hnil. destruct lds; [done|discriminate].
      * destruct (Z.eqb_spec n 0); [|exact Hlt].
        eapply Forall_impl; [exact Hlt|]. cbn. intros; lia.
      * unfold counter_limit in *. destruct (Z.eqb_spec n 0); lia.
    + apply Hsame; reflexivity.
  - destruct (pickColorGlobal_stack cfg x y s) as [Hl Hn].
    apply Hsame; [rewrite Hl; reflexivity|exact Hn].
  - apply Hsame; destruct s; reflexivity.
  - destruct (saveHistoryState_ids s i) as [Hl Hn].
    apply Hsame; [rewrite Hl; reflexivity|exact Hn].
Qed.

Lemma events_stack_sound cfg total evs s :
  total + 2 < counter_limit → Z.of_nat (length evs) ≤ total →
  Forall (keeps_ids total) evs →
  stack_sound s → counter_room (Z.of_nat (length evs)) s →
  stack_sound (foldl (λ s ev, exec (handle cfg ev) s) s evs).
Proof.
  intros Htotal Hle Hevs. revert s Hle.
  induction Hevs as [|ev evs Hev Hevs IH]; intros s Hle Hs Hc; [exact Hs|].
  cbn [length] in *. cbn [foldl].
  destruct (handle_stack_sound cfg ev s (Z.of_nat (length evs)) total)
    as [Hs' Hc']; try assumption; try lia.
  { replace (Z.of_nat (length evs) + 1) with (Z.of_nat (S (length evs))) by lia.
    exact Hc. }
  apply IH; [lia|exact Hs'|exact Hc'].
Qed.

(** X9. In a session of fewer than 2^53 - 2 events after [init], as long as
    every file loaded holds a project with layers, distinct ids and a
    counter above them that the rest of the session cannot take to 2^53 (or
    does not parse), the stack is never empty, no two layers share an id,
    and every id is below [nextLayerId]. *)
Theorem session_stack_sound (cfg : Config) (evs : list Event) :
  Z.of_nat (length evs) + 2 < counter_limit →
  Forall (keeps_ids (Z.of_nat (length evs))) evs →
  layers (session cfg evs) ≠ []
  ∧ NoDup (id <$> layers (session cfg evs))
  ∧ Forall (λ i, i < nextLayerId (session cfg evs)) (id <$> layers (session cfg evs)).
Proof.
  intros Htotal Hevs.
  enough (stack_sound (session cfg evs)) as [Hne [Hnd Hlt]] by auto.
  unfold session.
  assert (stack_sound (exec (init cfg) state)
          ∧ counter_room (Z.of_nat (length evs)) (exec (init cfg) state)) as Hinit.
  { unfold init. destruct (addLayer_layers cfg "Background" state) as [Hl Hn].
    unfold stack_sound, ids_fresh, counter_room. rewrite Hl, Hn. cbn.
    change (js_succ 1) with 2. unfold counter_limit in *.
    split; [|lia].
    split; [discriminate|]. split; [apply NoDup_singleton|].
    apply Forall_singleton. lia. }
  destruct Hinit as [Hs Hc].
  apply (events_stack_sound cfg (Z.of_nat (length evs)));
    [exact Htotal|lia|exact Hevs|exact Hs|exact Hc].
Qed.

Lemma session_stack_sound_witness :
  NoDup (id <$> layers
           (session cfg2x2
              [ClickAddLayer; ClickAddLayer; ClickDelete 2; ClickAddLayer;
               ChooseFile (Some (JSONText saved_project)); ClickAddLayer;
               ChooseFile (Some Malformed); ClickUndo])).
Proof.
  apply (session_stack_sound cfg2x2
           [ClickAddLayer; ClickAddLayer; ClickDelete 2; ClickAddLayer;
            ChooseFile (Some (JSONText saved_project)); ClickAddLayer;
            ChooseFile (Some Malformed); ClickUndo]).
  { vm_compute. reflexivity. }
  assert (project_wf 8 saved_project) as Hwf.
  { exists [ {| ld_id := 1; ld_name := "Background"; ld_visible := true;
                ld_data := Encoded [white; white; white; white] |};
             {| ld_id := 2; ld_name := "Layer 2"; ld_visible := false;
                ld_data := Encoded [redPx; transparent; transparent;
                                    transparent] |} ],
           3.
    split; [reflexivity|]. split; [discriminate|].
    split; [cbn; apply NoDup_cons; split;
              [intros H; apply list_elem_of_singleton in H; discriminate
              |apply NoDup_singleton]|].
    split; [reflexivity|]. cbn.
    split; [repeat (apply Forall_cons; split; [lia|]); apply Forall_nil_2|].
    unfold counter_limit. lia. }
  repeat (apply Forall_cons; split; [first [exact I | exact Hwf]|]).
  apply Forall_nil_2.
Defined.

(** Without the bound the ids do collide: at a counter of 2^53, which a
    loaded file can set, [nextLayerId++] leaves the counter where it is and
    two layers added in a row get the same id. *)
Lemma addLayer_twice_at_counter_limit cfg name1 name2 s :
  nextLayerId s = counter_limit →
  ¬ NoDup (id <$> layers (exec (addLayer cfg name2) (exec (addLayer cfg name1) s))).
Proof.
  intros Hn.
  destruct (addLayer_layers cfg name1 s) as [Hl1 Hn1].
  destruct (addLayer_layers cfg name2 (exec (addLayer cfg name1) s)) as [Hl2 _].
  rewrite Hl2, Hl1, Hn1, Hn. rewrite !fmap_app. cbn [fmap list_fmap id].
  change (js_succ counter_limit) with counter_limit.
  rewrite <- app_assoc. intros Hnd. apply NoDup_app in Hnd as (_ & _ & Hnd).
  cbn in Hnd. apply NoDup_cons in Hnd as [Hnot _]. apply Hnot.
  apply list_elem_of_here.
Qed.

(** X10. With at least two layers and distinct ids, [deleteLayer] removes
    exactly the layer with that id and keeps the others in order; the id is
    gone from the stack; if the layer was active, the layer just below it
    becomes active, or the new bottom layer if it was the bottom one;
    otherwise the selection stays; the log is untouched. *)
Theorem deleteLayer_removes (s : State) (i : Z) (idx : nat) (layer : Layer) :
  (2 ≤ length (layers s))%nat →
  findLayer i (layers s) = Some (idx, layer) →
  NoDup (id <$> layers s) →
  layers (exec (deleteLayer i) s) = delete idx (layers s)
  ∧ (i ∉ id <$> layers (exec (deleteLayer i) s))
  ∧ activeLayerId (exec (deleteLayer i) s)
    = (if decide (activeLayerId s = Some i)
       then id <$> (layers s !! (match idx with O => 1 | S below => below end)%nat)
       else activeLayerId s)
  ∧ same_log s (exec (deleteLayer i) s).
Proof.
  intros Hlen Hfind Hnd.
  destruct (deleteLayer_layers i s) as [_ Hl].
  replace (Z.of_nat (length (layers s)) <=? 1) with false in Hl by lia.
  rewrite Hfind in Hl.
  pose proof Hfind as Hfind'.
  apply list_find_Some in Hfind' as (Hidx & Hid & _).
  split; [exact Hl|]. split; [|split; [|apply deleteLayer_log]].
  - rewrite Hl, list_fmap_delete. intros Hin.
    apply list_elem_of_lookup in Hin as [j Hj].
    rewrite list_lookup_delete in Hj.
    assert ((id <$> layers s) !! idx = Some i) as Hi
      by (rewrite list_lookup_fmap, Hidx; cbn; congruence).
    destruct (decide (j < idx)%nat).
    + pose proof (NoDup_lookup _ _ _ _ Hnd Hj Hi). lia.
    + pose proof (NoDup_lookup _ _ _ _ Hnd Hj Hi). lia.
  - unfold deleteLayer, setActiveLayer. unfold_M.
    replace (Z.of_nat (length (layers s)) <=? 1) with false by lia.
    rewrite Hfind.
    destruct (decide (activeLayerId s = Some i)) as [Hact|Hact];
      [|destruct s; reflexivity].
    replace (layers (set_layers (delete idx (layers s)) s))
      with (delete idx (layers s)) by (destruct s; reflexivity).
    unfold at_index. replace (Z.max 0 (Z.of_nat idx - 1) <? 0) with false by lia.
    assert (delete idx (layers s) !! Z.to_nat (Z.max 0 (Z.of_nat idx - 1))
            = layers s !! (match idx with O => 1 | S below => below end)%nat)
      as ->.
    { destruct idx as [|below].
      - rewrite list_lookup_delete_ge by (cbn; lia). reflexivity.
      - rewrite list_lookup_delete_lt by lia. f_equal. lia. }
    apply lookup_lt_Some in Hidx.
    destruct (lookup_lt_is_Some_2 (layers s)
                (match idx with O => 1 | S below => below end)%nat) as [l Hl'];
      [destruct idx; lia|].
    rewrite Hl'. destruct s; reflexivity.
Qed.

Lemma deleteLayer_removes_witness :
  layers (exec (deleteLayer 2) second_layer_wiped)
  = delete 1%nat (layers second_layer_wiped).
Proof.
  apply (deleteLayer_removes second_layer_wiped 2 1%nat
           {| id := 2; canvas := [transparent; transparent; transparent];
              visible := true; name := "Layer 2" |}).
  - vm_compute. lia.
  - reflexivity.
  - change (NoDup [1; 2]). apply NoDup_cons. split; [|apply NoDup_singleton].
    intros H. apply list_elem_of_singleton in H. discriminate.
Defined.

(** ** Restoring a project *)

Lemma restore_onloads_layers cfg total lds k c s done :
  layers s = done ++ (blankLayer cfg <$> lds) → length done = k →
  layers (exec (restore_onloads total k lds c) s)
  = done ++ (restoredLayer cfg <$> lds).
Proof.
  revert k c s done. induction lds as [|lData lds IH]; intros k c s done Hl Hk.
  { cbn in *. exact Hl. }
  unfold exec in *. unfold restoredLayer at 1. cbn [fmap list_fmap].
  destruct (decode (ld_data lData)) as [img|] eqn:Hdec.
  - rewrite (restore_onloads_decoded _ _ _ _ _ _ _ Hdec).
    rewrite (IH (S k) (S c) _
               (done ++ [set_canvas (drawImage img (createCanvas cfg))
                                    (blankLayer cfg lData)])).
    + rewrite <- app_assoc. reflexivity.
    + unfold onload_state.
      assert (layers (set_layers
                (alter (λ l, set_canvas (drawImage img (canvas l)) l) k (layers s)) s)
              = (done ++ [set_canvas (drawImage img (createCanvas cfg))
                                     (blankLayer cfg lData)])
                ++ (blankLayer cfg <$> lds)) as Hl1.
      { destruct s; cbn in *. subst. cbn.
        rewrite <- app_assoc. cbn.
        replace (length done) with (length done + 0)%nat by lia.
        rewrite alter_app_r. reflexivity. }
      destruct (S c =? total)%nat; [|exact Hl1].
      destruct (last _); [|exact Hl1].
      rewrite <- Hl1. match goal with |- layers (set_activeLayerId _ ?x) = _ =>
        destruct x; reflexivity end.
    + rewrite length_app. cbn. lia.
  - cbn [restore_onloads]. rewrite Hdec.
    rewrite (IH (S k) c s (done ++ [blankLayer cfg lData])).
    + rewrite <- app_assoc. reflexivity.
    + rewrite Hl. cbn. rewrite <- app_assoc. reflexivity.
    + rewrite length_app. cbn. lia.
Qed.

Lemma drawImage_onto_blank cfg img :
  sized cfg img → drawImage img (createCanvas cfg) = img.
Proof.
  unfold sized, createCanvas.
  generalize (Z.to_nat (width cfg) * Z.to_nat (height cfg))%nat as n.
  intros n. revert n. induction img as [|p img IH]; intros [|n] Hn;
    cbn in *; try discriminate; [reflexivity|].
  rewrite source_over_transparent. f_equal. apply IH. lia.
Qed.




Lemma drawImage_length img c : length (drawImage img c) = length c.
Proof.
  revert img. induction c as [|d c IH]; intros [|p img]; cbn; auto.
Qed.

Lemma createCanvas_sized cfg : sized cfg (createCanvas cfg).
Proof. unfold sized, createCanvas. apply length_replicate. Qed.

Lemma fillRect_sized cfg p c : sized cfg c → sized cfg (fillRect p c).
Proof. unfold sized, fillRect. rewrite length_fmap. done. Qed.

Lemma restoredLayer_sized cfg lData : sized cfg (canvas (restoredLayer cfg lData)).
Proof.
  unfold restoredLayer, sized. destruct (decode _); cbn;
    rewrite ?drawImage_length; apply createCanvas_sized.
Qed.

Lemma undo_layers s :
  layers (exec undo s) = layers s
  ∨ ∃ idx layer img,
      layers s !! idx = Some layer
      ∧ layers (exec undo s)
        = <[idx := set_canvas (drawImage img (clearRect (canvas layer))) layer]>
            (layers s).
Proof.
  unfold exec.
  destruct (Z.le_gt_cases (historyStep s) 0) as [Hle|Hpos].
  { rewrite (undo_bottom s Hle). auto. }
  assert (0 < historyStep s) as Hpos' by lia.
  destruct (at_index (history s) (historyStep s)) as [entry|] eqn:Hentry.
  - rewrite (undo_step s entry Hpos' Hentry). cbn zeta.
    destruct (findPrevData _ _ _) as [prevData|e]; [|destruct s; cbn; auto].
    destruct (findLayer (layerId entry) (layers s)) as [[idx layer]|] eqn:Hfind;
      [|destruct s; cbn; auto].
    destruct prevData as [d|]; [|destruct s; cbn; auto].
    destruct (decode d) as [img|]; [|destruct s; cbn; auto].
    apply list_find_Some in Hfind as (Hidx & _).
    right. exists idx, layer, img. destruct s; cbn in *. auto.
  - left. unfold undo. unfold_M.
    replace (0 <? historyStep s) with true by lia. rewrite Hentry.
    destruct s as [t c ls act n h st mx al]; cbn in *.
    destruct (findPrevData h None (Z.to_nat (st - 1))) as [prevData|e]; auto.
Qed.

Lemma restoreProject_layers_exact cfg project s :
  layers (exec (restoreProject cfg project) s)
  = match p_layers project with
    | Some lds => restoredLayer cfg <$> lds
    | None => []
    end.
Proof.
  unfold exec. destruct (p_layers project) as [lds|] eqn:Hl.
  - rewrite (restoreProject_layers cfg project lds s Hl).
    apply (restore_onloads_layers cfg (length lds) lds 0 0 _ []);
      [destruct s|]; reflexivity.
  - rewrite (restoreProject_no_layers cfg project s Hl). destruct s; reflexivity.
Qed.

Lemma handle_layers_sized cfg ev s :
  layers_sized cfg s → layers_sized cfg (exec (handle cfg ev) s).
Proof.
  unfold layers_sized. intros Hs.
  destruct ev as [|i|i|i| | | |file|x y|t|i]; cbn [handle].
  - change (Forall (λ l, sized cfg (canvas l))
              (layers (exec (addLayer cfg ("Layer " +:+ num (Some (nextLayerId s)))) s))).
    destruct (addLayer_layers cfg ("Layer " +:+ num (Some (nextLayerId s))) s)
      as [-> _].
    apply Forall_app. split; [exact Hs|]. apply Forall_singleton. cbn.
    destruct (_ =? 0); [|apply createCanvas_sized].
    apply fillRect_sized, createCanvas_sized.
  - destruct s; exact Hs.
  - unfold toggleLayerVisibility. unfold_M.
    destruct (findLayer i (layers s)) as [[idx layer]|] eqn:Hfind; [|exact Hs].
    apply list_find_Some in Hfind as (Hidx & _).
    destruct s; cbn in *. apply Forall_insert; [exact Hs|].
    rewrite Forall_lookup in Hs. exact (Hs _ _ Hidx).
  - destruct (deleteLayer_layers i s) as [_ ->].
    destruct (_ <=? 1); [exact Hs|].
    destruct (findLayer i (layers s)) as [[idx layer]|]; [|exact Hs].
    apply Forall_delete. exact Hs.
  - destruct (undo_layers s) as [->|(idx & layer & img & Hidx & ->)]; [exact Hs|].
    apply Forall_insert; [exact Hs|]. cbn. unfold sized.
    rewrite drawImage_length. unfold clearRect. rewrite length_fmap.
    rewrite Forall_lookup in Hs. exact (Hs _ _ Hidx).
  - destruct (clearCurrentLayer_as_save s) as [->|(a & idx & layer & _ & Hf & ->)];
      [exact Hs|].
    match goal with
    | |- context [exec (saveHistoryState a) ?s0] =>
        destruct (saveHistoryState_ids s0 a) as [-> _]
    end.
    apply list_find_Some in Hf as (Hidx & _).
    destruct s; cbn in *. apply Forall_insert; [exact Hs|]. cbn. unfold sized.
    unfold clearRect. rewrite length_fmap.
    rewrite Forall_lookup in Hs. exact (Hs _ _ Hidx).
  - destruct s; exact Hs.
  - destruct file as [[|project]|]; [destruct s; exact Hs| |exact Hs].
    destruct (loadProject_parsed cfg project s) as (-> & _).
    rewrite restoreProject_layers_exact.
    destruct (p_layers project) as [lds|]; [|apply Forall_nil_2].
    apply Forall_fmap, Forall_forall. intros lData _. apply restoredLayer_sized.
  - destruct (pickColorGlobal_stack cfg x y s) as [-> _]. exact Hs.
  - destruct s; exact Hs.
  - destruct (saveHistoryState_ids s i) as [-> _]. exact Hs.
Qed.

Lemma session_layers_sized cfg evs : layers_sized cfg (session cfg evs).
Proof.
  unfold session. apply foldl_invariant.
  - intros s ev. apply handle_layers_sized.
  - unfold layers_sized, init.
    destruct (addLayer_layers cfg "Background" state) as [-> _].
    apply Forall_app. split; [apply Forall_nil_2|]. apply Forall_singleton.
    apply fillRect_sized, createCanvas_sized.
Qed.

Lemma layers_set_layers ls s : layers (set_layers ls s) = ls.
Proof. destruct s; reflexivity. Qed.

Lemma restoredLayer_savedLayer cfg l :
  sized cfg (canvas l) → restoredLayer cfg (savedLayer l) = l.
Proof.
  intros Hs. unfold restoredLayer, savedLayer, blankLayer. cbn.
  rewrite (drawImage_onto_blank cfg _ Hs). destruct l; reflexivity.
Qed.

Lemma loadProject_restored cfg project lds s :
  p_layers project = Some lds →
  loadProject cfg (Some (JSONText project)) s
  = (Normal tt, exec (restoreProject cfg project) s).
Proof.
  intros Hl. unfold loadProject, JSON_parse. unfold_M.
  rewrite (restoreProject_layers cfg project lds s Hl).
  match goal with
  | |- context [restore_onloads ?t ?k ?l ?c ?s0] =>
      destruct (restore_onloads_stack t l k c s0) as (_ & Hn & _)
  end.
  unfold completion in Hn.
  destruct (restore_onloads _ _ _ _ _) as [[[]|e] s1]; cbn in *;
    [reflexivity|discriminate].
Qed.

(** X12. A project saved from a session whose surfaces have the canvas size
    and loaded back, into whatever session, restores the saved stack exactly:
    the same layers with the same pixels, names and visibility in the same
    order, and the same id counter (provided it is not 0); the top layer
    becomes active; nothing is reported and the log of the receiving session
    is left as it was. *)
Theorem saveProject_loadProject_round_trip
    (cfg : Config) (s : State) (pd : ProjectData) (s' : State) :
  layers_sized cfg s →
  completion (saveProject cfg) s = Normal pd →
  nextLayerId s ≠ 0 →
  layers (exec (loadProject cfg (Some (JSON_stringify pd))) s')
    = layers s
  ∧ nextLayerId (exec (loadProject cfg (Some (JSON_stringify pd))) s')
    = nextLayerId s
  ∧ activeLayerId (exec (loadProject cfg (Some (JSON_stringify pd))) s')
    = match last (layers s) with
      | Some l => Some (id l)
      | None => activeLayerId s'
      end
  ∧ alerts (exec (loadProject cfg (Some (JSON_stringify pd))) s') = alerts s'
  ∧ history (exec (loadProject cfg (Some (JSON_stringify pd))) s') = history s'.
Proof.
  intros Hsized Hsave Hnext.
  unfold saveProject, completion in Hsave. unfold_M. cbn in Hsave.
  injection Hsave as <-. unfold JSON_stringify. cbn [pd_nextLayerId pd_layers].
  set (lds := _ <$> layers s).
  set (project := {| p_nextLayerId := Some (nextLayerId s); p_layers := Some lds |}).
  assert (lds = savedLayer <$> layers s) as Hlds by reflexivity.
  clearbody lds.
  unfold exec. rewrite (loadProject_restored cfg project lds s' eq_refl). cbn [snd].
  destruct (restoreProject_stack cfg project s') as [Hn _].
  pose proof (restoreProject_layers_exact cfg project s') as Hl. cbn in Hl.
  split; [|split; [|split; [|split]]].
  - rewrite Hl, Hlds, <- list_fmap_compose.
    apply list_eq. intros k. rewrite list_lookup_fmap.
    destruct (layers s !! k) as [l|] eqn:Hk; [|reflexivity]. cbn. f_equal.
    apply restoredLayer_savedLayer.
    unfold layers_sized in Hsized. rewrite Forall_lookup in Hsized.
    exact (Hsized _ _ Hk).
  - rewrite Hn. unfold restoredCounter. cbn.
    destruct (Z.eqb_spec (nextLayerId s) 0); [done|reflexivity].
  - unfold exec. rewrite (restoreProject_layers cfg project lds s' eq_refl).
    match goal with
    | |- context [restore_onloads ?t ?k ?l ?c ?s0] =>
        destruct (restore_onloads_stack t l k c s0)
          as (_ & _ & _ & _ & _ & _ & Hact)
    end.
    unfold exec in Hact.
    destruct (decide (layers s = [])) as [Hnil|Hne].
    + rewrite Hnil in *. subst lds. cbn. destruct s'; reflexivity.
    + rewrite Hact.
      * rewrite layers_set_layers, Hlds, !fmap_last.
        destruct (last (layers s)) as [l|] eqn:Hlast; [reflexivity|].
        apply last_None in Hlast. done.
      * apply forallb_forall. intros lData Hin. subst lds.
        apply in_map_iff in Hin as (l & <- & _). reflexivity.
      * reflexivity.
      * subst lds. destruct (layers s); [done|discriminate].
  - unfold exec. rewrite (restoreProject_layers cfg project lds s' eq_refl).
    match goal with
    | |- context [restore_onloads ?t ?k ?l ?c ?s0] =>
        destruct (restore_onloads_stack t l k c s0)
          as (_ & _ & _ & _ & _ & Hal & _)
    end.
    unfold exec in Hal. rewrite Hal. destruct s'; reflexivity.
  - apply restoreProject_history.
Qed.

Lemma saveProject_loadProject_round_trip_witness :
  layers
    (exec (loadProject cfg2x2
             (Some (JSON_stringify
                {| version := 1; pd_width := 2; pd_height := 2;
                   pd_nextLayerId := 3;
                   pd_layers := savedLayer
                     <$> layers (session cfg2x2 [ClickAddLayer; ClickVisibility 1]) |})))
          state)
  = layers (session cfg2x2 [ClickAddLayer; ClickVisibility 1]).
Proof.
  apply (saveProject_loadProject_round_trip cfg2x2
           (session cfg2x2 [ClickAddLayer; ClickVisibility 1])
           {| version := 1; pd_width := 2; pd_height := 2; pd_nextLayerId := 3;
              pd_layers := savedLayer
                <$> layers (session cfg2x2 [ClickAddLayer; ClickVisibility 1]) |}
           state).
  - apply session_layers_sized.
  - reflexivity.
  - vm_compute. discriminate.
Defined.

(** ** The generated program *)

Lemma foldl_bind {A B C} (f : A → C → A) (g : B → list C) (a : A) (l : list B) :
  foldl f a (l ≫= g) = foldl (λ a x, foldl f a (g x)) a l.
Proof.
  revert a. induction l as [|x l IH]; intros a; [reflexivity|].
  cbn. rewrite foldl_app. apply IH.
Qed.

Lemma foldl_same {A B} (f g : A → B → A) (a : A) (l : list B) :
  (∀ a x, f a x = g a x) → foldl f a l = foldl g a l.
Proof.
  intros Hfg. revert a. induction l as [|x l IH]; intros a; [reflexivity|].
  cbn. rewrite Hfg. apply IH.
Qed.

Lemma scanPixels_scanOrder cfg data :
  scanPixels cfg data
  = foldl (λ acc yx, scanPixel cfg data yx.1 yx.2 acc)
          {| lastR := Some (-1); lastG := Some (-1); lastB := Some (-1);
             rects := [] |}
          (scanOrder cfg).
Proof.
  unfold scanPixels, scanOrder. rewrite foldl_bind.
  apply foldl_same. intros acc y. rewrite foldl_bind. reflexivity.
Qed.

Lemma scanPixel_stmts cfg data y x acc :
  rects (scanPixel cfg data y x acc)
  = rects acc ++ (print <$> pixelStmts (lastOf acc) (colourOf cfg data y x) y x)
  ∧ lastOf (scanPixel cfg data y x acc)
    = if isInk (colourOf cfg data y x) then colourOf cfg data y x else lastOf acc.
Proof.
  unfold scanPixel, pixelStmts, colourOf, isInk, lastOf. cbn [fst snd].
  set (r := at_index data _). set (g := at_index data _). set (b := at_index data _).
  destruct (lt250 r || lt250 g || lt250 b); [|rewrite app_nil_r; auto].
  case_decide as Hd.
  - injection Hd as Hr Hg Hb.
    rewrite bool_decide_eq_false_2 by (intros [?|[?|?]]; congruence).
    cbn. split; [reflexivity|congruence].
  - rewrite bool_decide_eq_true_2.
    + cbn. rewrite <- app_assoc. auto.
    + destruct (decide (r = lastR acc)); [|tauto].
      destruct (decide (g = lastG acc)); [|tauto].
      destruct (decide (b = lastB acc)); [|tauto].
      exfalso. apply Hd. congruence.
Qed.

Lemma scan_stmts cfg data yxs :
  let acc := foldl (λ acc yx, scanPixel cfg data yx.1 yx.2 acc)
                   {| lastR := Some (-1); lastG := Some (-1); lastB := Some (-1);
                      rects := [] |} yxs in
  rects acc = print <$> (scanStmts cfg data yxs).2
  ∧ lastOf acc = (scanStmts cfg data yxs).1.
Proof.
  induction yxs as [|yx yxs IH] using rev_ind; [cbn; auto|].
  cbn zeta in *. unfold scanStmts in *. rewrite !foldl_snoc.
  destruct IH as [IHr IHl]. cbn [fst snd].
  destruct (scanPixel_stmts cfg data yx.1 yx.2
              (foldl (λ acc yx, scanPixel cfg data yx.1 yx.2 acc)
                 {| lastR := Some (-1); lastG := Some (-1); lastB := Some (-1);
                    rects := [] |} yxs)) as [Hr Hl].
  rewrite Hr, Hl, IHr, IHl, fmap_app. auto.
Qed.

Lemma compileLines_stmts cfg tempC :
  compileLines cfg tempC
  = header cfg
    ++ (print <$> (scanStmts cfg (getImageData tempC) (scanOrder cfg)).2)
    ++ ["}"].
Proof.
  unfold compileLines, header. rewrite scanPixels_scanOrder.
  destruct (scan_stmts cfg (getImageData tempC) (scanOrder cfg)) as [-> _].
  rewrite <- app_assoc. reflexivity.
Qed.

Lemma replay_app current p q :
  replay current (p ++ q) = replay current p ++ replay (selected current p) q.
Proof.
  revert current. induction p as [|[c|x y] p IH]; intros current; cbn.
  - reflexivity.
  - apply IH.
  - f_equal. apply IH.
Qed.

Lemma selected_app current p q :
  selected current (p ++ q) = selected (selected current p) q.
Proof. unfold selected. apply foldl_app. Qed.

Lemma at_index_elem {A} (a : list A) i v : at_index a i = Some v → v ∈ a.
Proof.
  intros H. apply at_index_Some in H as (_ & H & _).
  apply list_elem_of_lookup. eauto.
Qed.

Lemma ink_not_initLast cfg data y x :
  Forall (λ v, 0 ≤ v) data → colourOf cfg data y x ≠ initLast.
Proof.
  intros Hbytes Heq. unfold colourOf, initLast in Heq.
  injection Heq as Hr _ _. apply at_index_elem in Hr.
  rewrite Forall_forall in Hbytes. specialize (Hbytes _ Hr). lia.
Qed.

Lemma scanStmts_snoc cfg data yxs yx :
  scanStmts cfg data (yxs ++ [yx])
  = let st := scanStmts cfg data yxs in
    let c := colourOf cfg data yx.1 yx.2 in
    (if isInk c then c else st.1, st.2 ++ pixelStmts st.1 c yx.1 yx.2).
Proof. unfold scanStmts. rewrite foldl_snoc. reflexivity. Qed.

(** Replaying the statements scanned so far paints the ink pixels met so
    far; the generator's last colour is the colour selected, once there is a
    statement. *)
Lemma scanStmts_replay cfg data yxs :
  Forall (λ v, 0 ≤ v) data →
  replay defaultFill (scanStmts cfg data yxs).2
  = omap (λ yx, let c := colourOf cfg data yx.1 yx.2 in
                if isInk c then Some (yx.2, yx.1, c) else None) yxs
  ∧ (((scanStmts cfg data yxs).2 = [] ∧ (scanStmts cfg data yxs).1 = initLast)
     ∨ selected defaultFill (scanStmts cfg data yxs).2 = (scanStmts cfg data yxs).1).
Proof.
  intros Hbytes. induction yxs as [|yx yxs [IHr IHs]] using rev_ind.
  { cbn. auto. }
  rewrite scanStmts_snoc, omap_app.
  replace (omap _ [yx])
    with (if isInk (colourOf cfg data yx.1 yx.2)
          then [(yx.2, yx.1, colourOf cfg data yx.1 yx.2)] else [])
    by (cbn; destruct (isInk _); reflexivity).
  cbn zeta. cbn [fst snd].
  remember (scanStmts cfg data yxs) as st eqn:Hst. clear Hst.
  pose proof (ink_not_initLast cfg data yx.1 yx.2 Hbytes) as Hnot.
  remember (colourOf cfg data yx.1 yx.2) as c eqn:Hc. clear Hc.
  unfold pixelStmts. destruct (isInk c) eqn:Hink.
  - rewrite replay_app, selected_app, IHr. cbn [app].
    case_decide as Hd.
    + destruct IHs as [[_ Hinit]|Hsel]; [congruence|].
      cbn. rewrite Hsel, Hd. auto.
    + cbn. auto.
  - rewrite !app_nil_r. auto.
Qed.

Lemma prefix_append (p s : string) : String.prefix p (p +:+ s) = true.
Proof.
  induction p as [|a p IH].
  - destruct s; reflexivity.
  - change (match ascii_dec a a with
            | left _ => String.prefix p (p +:+ s)
            | right _ => false
            end = true).
    destruct (ascii_dec a a) as [_|Hne]; [exact IH|]. destruct Hne. reflexivity.
Qed.

Lemma header_no_rect cfg :
  filter (λ line, is_rect line = true) (header cfg) = []
  ∧ filter (λ line, is_rect line = true) ["}"] = [].
Proof. split; vm_compute; reflexivity. Qed.

Lemma count_rect_lines current program :
  length (filter (λ line, is_rect line = true) (print <$> program))
  = length (replay current program).
Proof.
  revert current. induction program as [|[[[r g] b]|x y] program IH];
    intros current; [reflexivity| |].
  - cbn [fmap list_fmap replay]. rewrite filter_cons_False; [apply IH|].
    vm_compute. discriminate.
  - cbn [fmap list_fmap replay].
    rewrite filter_cons_True; [|apply prefix_append].
    cbn. f_equal. apply IH.
Qed.

(** X13. Replayed by a runtime in which [fill] selects the colour and
    [rect(x, y, 1)] paints the unit square at [(x, y)], the generated
    statements paint exactly the ink pixels of the image data (those with a
    colour byte under 250), in scan order, each in its own colour; there are
    as many [rect] lines as ink pixels. *)
Theorem generated_program_repaints_ink (cfg : Config) (tempC : Canvas) :
  Forall (λ v, 0 ≤ v) (getImageData tempC) →
  ∃ program,
    compileLines cfg tempC = header cfg ++ (print <$> program) ++ ["}"]
    ∧ replay defaultFill program = inkPixels cfg (getImageData tempC)
    ∧ length (filter (λ line, is_rect line = true) (compileLines cfg tempC))
      = length (inkPixels cfg (getImageData tempC)).
Proof.
  intros Hbytes.
  exists (scanStmts cfg (getImageData tempC) (scanOrder cfg)).2.
  destruct (scanStmts_replay cfg (getImageData tempC) (scanOrder cfg) Hbytes)
    as [Hreplay _].
  split; [apply compileLines_stmts|]. split; [exact Hreplay|].
  rewrite compileLines_stmts, !filter_app, !length_app.
  destruct (header_no_rect cfg) as [-> ->].
  rewrite (count_rect_lines defaultFill), Hreplay.
  unfold inkPixels. cbn. lia.
Qed.

Lemma generated_program_repaints_ink_witness :
  ∃ program,
    compileLines cfg3x1 [redPx; white; bluePx]
      = header cfg3x1 ++ (print <$> program) ++ ["}"]
    ∧ replay defaultFill program
      = [ (0, 0, (Some 255, Some 0, Some 0)); (2, 0, (Some 0, Some 0, Some 255)) ].
Proof.
  destruct (generated_program_repaints_ink cfg3x1 [redPx; white; bluePx])
    as (program & Hlines & Hreplay & _).
  - change (getImageData [redPx; white; bluePx])
      with [255; 0; 0; 255; 255; 255; 255; 255; 0; 0; 255; 255].
    repeat (apply Forall_cons; split; [lia|]). apply Forall_nil_2.
  - exists program. split; [exact Hlines|]. exact Hreplay.
Defined.

Lemma getImageData_length c : length (getImageData c) = (4 * length c)%nat.
Proof.
  induction c as [|p c IH]; [reflexivity|].
  change (getImageData (p :: c)) with (pixelBytes p ++ getImageData c).
  rewrite length_app, IH. cbn. lia.
Qed.

Lemma nearWhite_not_ink cfg tempC y x :
  Forall nearWhite tempC →
  isInk (colourOf cfg (getImageData tempC) y x) = false.
Proof.
  intros Hwhite. unfold isInk, colourOf. cbn [fst snd].
  set (k := y * width cfg + x).
  destruct (Z.lt_ge_cases k 0) as [Hneg|Hpos].
  { unfold at_index.
    replace (k * 4 <? 0) with true by lia.
    replace (k * 4 + 1 <? 0) with true by lia.
    replace (k * 4 + 2 <? 0) with true by lia. reflexivity. }
  unfold at_index.
  replace (k * 4 <? 0) with false by lia.
  replace (k * 4 + 1 <? 0) with false by lia.
  replace (k * 4 + 2 <? 0) with false by lia.
  replace (Z.to_nat (k * 4)) with (4 * Z.to_nat k)%nat by lia.
  replace (Z.to_nat (k * 4 + 1)) with (4 * Z.to_nat k + 1)%nat by lia.
  replace (Z.to_nat (k * 4 + 2)) with (4 * Z.to_nat k + 2)%nat by lia.
  destruct (tempC !! Z.to_nat k) as [p|] eqn:Hp.
  - destruct (getImageData_lookup _ _ _ Hp) as (-> & -> & ->).
    rewrite Forall_lookup in Hwhite. destruct (Hwhite _ _ Hp) as (Hr & Hg & Hb).
    cbn. replace (_ <? 250) with false by lia.
    replace (_ <? 250) with false by lia.
    replace (_ <? 250) with false by lia. reflexivity.
  - apply lookup_ge_None in Hp.
    pose proof (getImageData_length tempC) as Hlen.
    rewrite !(lookup_ge_None_2 (getImageData tempC)) by lia. reflexivity.
Qed.

Lemma scanStmts_no_ink cfg data yxs :
  (∀ y x, isInk (colourOf cfg data y x) = false) →
  scanStmts cfg data yxs = (initLast, []).
Proof.
  intros Hno. induction yxs as [|yx yxs IH] using rev_ind; [reflexivity|].
  rewrite scanStmts_snoc, IH. cbn zeta. unfold pixelStmts.
  rewrite Hno. reflexivity.
Qed.

(** X14. A flattened canvas whose pixels are all within the white tolerance
    (every colour byte 250 or more) compiles to the header and the closing
    brace only: no [fill] and no [rect]. *)
Theorem near_white_canvas_compiles_to_header (cfg : Config) (tempC : Canvas) :
  Forall nearWhite tempC →
  compileLines cfg tempC = header cfg ++ ["}"].
Proof.
  intros Hwhite. rewrite compileLines_stmts.
  rewrite (scanStmts_no_ink cfg (getImageData tempC) (scanOrder cfg)).
  - reflexivity.
  - intros y x. apply nearWhite_not_ink. exact Hwhite.
Qed.

Lemma near_white_canvas_compiles_to_header_witness :
  compileLines cfg2x2 (flattenLayers cfg2x2 (layers (exec (init cfg2x2) state)))
  = header cfg2x2 ++ ["}"].
Proof.
  apply (near_white_canvas_compiles_to_header cfg2x2
           (flattenLayers cfg2x2 (layers (exec (init cfg2x2) state)))).
  change (flattenLayers cfg2x2 (layers (exec (init cfg2x2) state)))
    with [white; white; white; white].
  repeat (apply Forall_cons; split;
          [unfold nearWhite; change (unpremultiply (alpha white) (red white)) with 255;
           change (unpremultiply (alpha white) (green white)) with 255;
           change (unpremultiply (alpha white) (blue white)) with 255; lia|]).
  apply Forall_nil_2.
Defined.

Lemma runsFrom_snoc last cs c :
  runsFrom last (cs ++ [c])
  = (runsFrom last cs + (if decide (c = lastOr last cs) then 0 else 1))%nat.
Proof.
  revert last. induction cs as [|c0 cs IH]; intros last.
  - cbn. lia.
  - cbn [app runsFrom]. rewrite IH. unfold lastOr. cbn [foldl]. lia.
Qed.

(** The statements scanned so far hold one [fill] per colour run of the ink
    pixels met so far, and the generator's last colour is the colour of the
    last ink pixel. *)
Lemma scanStmts_fills cfg data yxs :
  length (filter (λ st, isFill st = true) (scanStmts cfg data yxs).2)
  = runsFrom initLast (inkColours cfg data yxs)
  ∧ (scanStmts cfg data yxs).1 = lastOr initLast (inkColours cfg data yxs).
Proof.
  induction yxs as [|yx yxs [IHn IHl]] using rev_ind; [cbn; auto|].
  rewrite scanStmts_snoc. unfold inkColours in *. rewrite omap_app.
  replace (omap _ [yx])
    with (if isInk (colourOf cfg data yx.1 yx.2)
          then [colourOf cfg data yx.1 yx.2] else [])
    by (cbn; destruct (isInk _); reflexivity).
  cbn zeta. cbn [fst snd].
  remember (scanStmts cfg data yxs) as st eqn:Hst. clear Hst.
  remember (colourOf cfg data yx.1 yx.2) as c eqn:Hc. clear Hc.
  unfold pixelStmts. destruct (isInk c) eqn:Hink.
  - rewrite runsFrom_snoc, <- IHl, <- IHn, filter_app, length_app.
    split; [|unfold lastOr; rewrite foldl_snoc; reflexivity].
    case_decide.
    + rewrite app_nil_l, filter_cons_False by (cbn; discriminate).
      rewrite filter_nil. cbn. lia.
    + cbn [app]. rewrite filter_cons_True by reflexivity.
      rewrite filter_cons_False by (cbn; discriminate).
      rewrite filter_nil. cbn. lia.
  - rewrite !app_nil_r. auto.
Qed.

Lemma count_fill_lines program :
  length (filter (λ line, is_fill line = true) (print <$> program))
  = length (filter (λ st, isFill st = true) program).
Proof.
  induction program as [|[[[r g] b]|x y] program IH]; [reflexivity| |].
  - cbn [fmap list_fmap]. rewrite !filter_cons_True;
      [|reflexivity|apply prefix_append].
    cbn. f_equal. apply IH.
  - cbn [fmap list_fmap]. rewrite !filter_cons_False; [apply IH| |].
    + cbn. discriminate.
    + vm_compute. discriminate.
Qed.

Lemma header_no_fill cfg :
  filter (λ line, is_fill line = true) (header cfg) = []
  ∧ filter (λ line, is_fill line = true) ["}"] = [].
Proof. split; vm_compute; reflexivity. Qed.

Lemma inkPixels_colours cfg data :
  (λ p, p.2) <$> inkPixels cfg data = inkColours cfg data (scanOrder cfg).
Proof.
  unfold inkPixels, inkColours. induction (scanOrder cfg) as [|yx yxs IH];
    [reflexivity|].
  cbn. destruct (isInk _); cbn; rewrite IH; reflexivity.
Qed.

(** X15. Colour coalescing in general: the generated program has exactly one
    [fill] line for each colour run of the ink pixels in scan order, that is,
    for each ink pixel whose colour differs from the ink pixel before it
    (the first one being compared with the generator's initial [-1, -1,
    -1]). *)
Theorem one_fill_per_colour_run (cfg : Config) (tempC : Canvas) :
  length (filter (λ line, is_fill line = true) (compileLines cfg tempC))
  = runsFrom initLast ((λ p, p.2) <$> inkPixels cfg (getImageData tempC)).
Proof.
  rewrite compileLines_stmts, !filter_app, !length_app.
  destruct (header_no_fill cfg) as [-> ->].
  rewrite count_fill_lines, inkPixels_colours.
  destruct (scanStmts_fills cfg (getImageData tempC) (scanOrder cfg)) as [-> _].
  cbn. lia.
Qed.

(** ** Undoing to the bottom *)

Lemma undo_iter_wf n s :
  history_wf s →
  history_wf (Nat.iter n (exec undo) s)
  ∧ historyStep (Nat.iter n (exec undo) s)
    = Z.min (historyStep s) (Z.max (historyStep s - Z.of_nat n) 0)
  ∧ history (Nat.iter n (exec undo) s) = history s.
Proof.
  intros Hwf. induction n as [|n (IHwf & IHs & IHh)].
  - cbn. split; [exact Hwf|]. split; [|reflexivity]. destruct Hwf. lia.
  - rewrite Nat.iter_succ.
    destruct (undo_log _ IHwf) as (_ & Hh & Hs & _).
    split; [|split].
    + unfold history_wf in *. rewrite Hh, Hs.
      destruct (Z.ltb_spec 0 (historyStep (Nat.iter n (exec undo) s))); lia.
    + rewrite Hs, IHs.
      destruct (Z.ltb_spec 0 (Z.min (historyStep s)
                                (Z.max (historyStep s - Z.of_nat n) 0))); lia.
    + rewrite Hh. exact IHh.
Qed.

(** X16. [undo] can be repeated at will: after [n] undos the cursor has gone
    down by [n] but not below 0 (a cursor at [-1] stays), the log is as it
    was, and once [n] reaches the cursor a further [undo] changes nothing:
    the entry at index 0 is never undone. *)
Theorem undo_exhausts (n : nat) (s : State) :
  history_wf s →
  historyStep (Nat.iter n (exec undo) s)
    = Z.min (historyStep s) (Z.max (historyStep s - Z.of_nat n) 0)
  ∧ history (Nat.iter n (exec undo) s) = history s
  ∧ (historyStep s ≤ Z.of_nat n →
     undo (Nat.iter n (exec undo) s) = (Normal tt, Nat.iter n (exec undo) s)).
Proof.
  intros Hwf. destruct (undo_iter_wf n s Hwf) as (_ & Hs & Hh).
  split; [exact Hs|]. split; [exact Hh|].
  intros Hn. apply undo_bottom. rewrite Hs. lia.
Qed.

Lemma undo_exhausts_witness :
  undo (Nat.iter 3 (exec undo) second_layer_wiped)
  = (Normal tt, Nat.iter 3 (exec undo) second_layer_wiped).
Proof.
  apply (undo_exhausts 3 second_layer_wiped).
  - vm_compute. split; [discriminate|reflexivity].
  - vm_compute. discriminate.
Defined.

(** ** A layer to draw on *)

Lemma clearCurrentLayer_active s :
  activeLayerId (exec clearCurrentLayer s) = activeLayerId s.
Proof.
  destruct (clearCurrentLayer_as_save s) as [->|(a & idx & layer & _ & _ & ->)];
    [reflexivity|].
  match goal with
  | |- context [exec (saveHistoryState a) ?s0] =>
      destruct (saveHistoryState_stack s0 a) as [_ ->]
  end.
  destruct s; reflexivity.
Qed.

Lemma active_valid_same s s' :
  id <$> layers s' = id <$> layers s → activeLayerId s' = activeLayerId s →
  active_valid s → active_valid s'.
Proof.
  intros Hids Hact Hvalid Hne. unfold active_valid in Hvalid.
  rewrite Hact, Hids. apply Hvalid. intros Hnil. apply Hne.
  apply fmap_nil_inv with (f := id). rewrite Hids, Hnil. reflexivity.
Qed.

Lemma handle_active_valid cfg ev s :
  allowed s ev = true → active_valid s → active_valid (exec (handle cfg ev) s).
Proof.
  intros Hal Hvalid. destruct ev as [|i|i|i| | | |file|x y|t|i]; cbn [handle].
  - exact (run_active_valid cfg
             (AddLayer ("Layer " +:+ num (Some (nextLayerId s)))) s Hvalid eq_refl).
  - exact (run_active_valid cfg (SetActiveLayer i) s Hvalid Hal).
  - exact (run_active_valid cfg (ToggleLayerVisibility i) s Hvalid eq_refl).
  - exact (run_active_valid cfg (DeleteLayer i) s Hvalid eq_refl).
  - destruct (undo_stack s) as (Hids & _ & Hact).
    exact (active_valid_same s _ Hids Hact Hvalid).
  - destruct (clearCurrentLayer_stack s) as [Hids _].
    exact (active_valid_same s _ Hids (clearCurrentLayer_active s) Hvalid).
  - apply (active_valid_same s); [destruct s; reflexivity..|exact Hvalid].
  - destruct file as [[|project]|].
    + apply (active_valid_same s); [destruct s; reflexivity..|exact Hvalid].
    + discriminate Hal.
    + exact Hvalid.
  - destruct (pickColorGlobal_stack cfg x y s) as [Hl _].
    apply (active_valid_same s); [rewrite Hl; reflexivity| |exact Hvalid].
    unfold pickColorGlobal, switchToTool. unfold_M. destruct s; reflexivity.
  - apply (active_valid_same s); [destruct s; reflexivity..|exact Hvalid].
  - destruct (saveHistoryState_stack s i) as [Hl Hact].
    apply (active_valid_same s); [rewrite Hl; reflexivity|exact Hact|exact Hvalid].
Qed.

Lemma play_active_valid cfg evs s0 s :
  active_valid s0 → play cfg evs s0 = Some s → active_valid s.
Proof.
  revert s0. induction evs as [|ev evs IH]; intros s0 Hvalid Hplay; cbn in Hplay.
  - injection Hplay as <-. exact Hvalid.
  - destruct (allowed s0 ev) eqn:Hal; [|discriminate].
    apply (IH (exec (handle cfg ev) s0)); [|exact Hplay].
    apply handle_active_valid; assumption.
Qed.

(** X17. As long as no project is restored there is always a layer to draw
    on: in a session played through the page (layers selected from the list,
    files chosen that do not parse), whenever the stack is not empty
    [getActiveCtx] returns a layer of the stack, the one whose id is
    [activeLayerId]. *)
Theorem getActiveCtx_finds_layer (cfg : Config) (evs : list Event) (s : State) :
  play cfg evs (exec (init cfg) state) = Some s →
  layers s ≠ [] →
  ∃ idx layer,
    getActiveCtx s = (Normal (Some (idx, layer)), s)
    ∧ layers s !! idx = Some layer
    ∧ activeLayerId s = Some (id layer).
Proof.
  intros Hplay Hne.
  assert (active_valid (exec (init cfg) state)) as Hinit.
  { exact (run_active_valid cfg (AddLayer "Background") state
             ltac:(intros H; exfalso; apply H; reflexivity) eq_refl). }
  destruct (play_active_valid cfg evs _ s Hinit Hplay Hne) as (a & Hact & Hin).
  unfold getActiveCtx. unfold_M. rewrite Hact.
  destruct (findLayer a (layers s)) as [[idx layer]|] eqn:Hfind.
  - apply list_find_Some in Hfind as (Hidx & Hid & _).
    exists idx, layer. split; [reflexivity|]. split; [exact Hidx|congruence].
  - exfalso. apply list_find_None in Hfind.
    apply list_elem_of_fmap in Hin as (l & -> & Hl).
    rewrite Forall_forall in Hfind. exact (Hfind l Hl eq_refl).
Qed.

Lemma getActiveCtx_finds_layer_witness :
  ∃ idx layer,
    getActiveCtx second_layer_deleted = (Normal (Some (idx, layer)), second_layer_deleted)
    ∧ layers second_layer_deleted !! idx = Some layer
    ∧ activeLayerId second_layer_deleted = Some (id layer).
Proof.
  apply (getActiveCtx_finds_layer cfg3x1 [ClickAddLayer; ClickDelete 2]).
  - vm_compute. reflexivity.
  - vm_compute. discriminate.
Defined.
